(** * tqbot: the update pipeline of the Telegram bot, embedded in Rocq

    The development follows the TypeScript sources:
    - [src/index.ts]: [setupMiddleware] (with the in-memory rate limiter),
      [setupCommands], [setupCallbackHandlers], [setupMessageHandlers];
    - [src/middleware/error.middleware.ts]: [errorMiddleware], [handleError],
      [notifyAdmins], [userValidationMiddleware],
      [commandValidationMiddleware], [adminMiddleware];
    - [src/handlers/commands.handler.ts] and
      [src/handlers/callbacks.handler.ts]: the handlers;
    - [src/config/bot.config.ts]: messages, keyboards, [defaultSessionData];
    - [src/utils/logger.ts]: [logBotEvent], [logUserAction].

    JavaScript numbers that hold identifiers, counters and millisecond
    timestamps are integers and are modelled as [Z].  An [async] function is
    a state transformer over a [World] that either returns or throws.

    What the sources rely on in the bot framework is fixed as follows.
    - Middleware runs in the order of registration; each one receives the
      rest of the stack as [next], and a handler that does not call [next]
      ends the processing of the update.
    - Every update is processed on a context object of its own.  The
      [session] property exists on it only once the session plugin has run.
    - The session plugin takes the session of the chat from its storage, or
      [initial ()] when there is none, runs the rest of the stack, and
      writes the session back unless the rest threw.
    - [bot.command (name, ...)] fires on a text message whose first word is
      [/name].
    - A call to the Bot API succeeds or throws; which of the two is
      scripted in the world, and so is the answer of the registration
      endpoint.
    Updates are processed one at a time.  A string is the UTF-8 encoding of
    the JavaScript string; string literals are those of the source files,
    byte for byte.  The patterns that the sources search for, split at or
    cut off are ASCII, so that positions in bytes and in characters
    agree where the sources count them. *)

From Stdlib Require Import ZArith Lia Ascii String.
From stdpp Require Import base option list strings gmap pretty.

Local Open Scope string_scope.
Local Open Scope list_scope.
Local Open Scope Z_scope.

(** ** JavaScript string operations used by the sources *)

Module Js.

(** [s.startsWith(p)] *)
Fixpoint startsWith (p s : string) : bool :=
  match p, s with
  | EmptyString, _ => true
  | String a p', String b s' => if decide (a = b) then startsWith p' s' else false
  | String _ _, EmptyString => false
  end.

(** [s.includes(p)] *)
Fixpoint includes (p s : string) : bool :=
  startsWith p s ||
  match s with
  | EmptyString => false
  | String _ s' => includes p s'
  end.

(** [s.slice(n)] and [s.substring(n)] for a non-negative [n] *)
Fixpoint slice (n : nat) (s : string) : string :=
  match n, s with
  | O, _ => s
  | S n', String _ s' => slice n' s'
  | S _, EmptyString => EmptyString
  end.

(** [s.split(c)] for a one-character separator [c]: the result is never
    empty, its head is the text before the first separator. *)
Fixpoint split (c : ascii) (s : string) : string * list string :=
  match s with
  | EmptyString => (EmptyString, [])
  | String a s' =>
      let '(hd, tl) := split c s' in
      if decide (a = c) then (EmptyString, hd :: tl) else (String a hd, tl)
  end.

(** The white space of [String.prototype.trim]: the characters [WhiteSpace]
    and [LineTerminator] of ECMAScript.  In UTF-8 these are the bytes 9 to
    13 and 32, the two bytes of U+00A0, and the three bytes of U+1680,
    U+2000 to U+200A, U+2028, U+2029, U+202F, U+205F, U+3000 and U+FEFF. *)
Definition is_space (a : ascii) : bool :=
  let n := nat_of_ascii a in
  (Nat.eqb n 32 || (Nat.leb 9 n && Nat.leb n 13))%bool.

Definition is_space2 (a b : ascii) : bool :=
  (Nat.eqb (nat_of_ascii a) 194 && Nat.eqb (nat_of_ascii b) 160)%bool.

Definition is_space3 (a b c : ascii) : bool :=
  let x := nat_of_ascii a in
  let y := nat_of_ascii b in
  let z := nat_of_ascii c in
  (Nat.eqb x 225 && Nat.eqb y 154 && Nat.eqb z 128
   || Nat.eqb x 226 && Nat.eqb y 128
      && (Nat.leb 128 z && Nat.leb z 138
          || Nat.eqb z 168 || Nat.eqb z 169 || Nat.eqb z 175)
   || Nat.eqb x 226 && Nat.eqb y 129 && Nat.eqb z 159
   || Nat.eqb x 227 && Nat.eqb y 128 && Nat.eqb z 128
   || Nat.eqb x 239 && Nat.eqb y 187 && Nat.eqb z 191)%bool.

(** [s.trimStart()]: drops white space characters, of one, two or three
    bytes, as long as the string starts with one. *)
Fixpoint trimStart (s : string) : string :=
  match s with
  | String a s1 =>
      if is_space a then trimStart s1
      else match s1 with
           | String b s2 =>
               if is_space2 a b then trimStart s2
               else match s2 with
                    | String c s3 =>
                        if is_space3 a b c then trimStart s3 else s
                    | EmptyString => s
                    end
           | EmptyString => s
           end
  | EmptyString => EmptyString
  end.

(** Nothing but white space *)
Definition blank (s : string) : bool :=
  match trimStart s with
  | EmptyString => true
  | String _ _ => false
  end.

(** [s.trimEnd()]: the string up to the point from which only white space
    follows. *)
Fixpoint trimEnd (s : string) : string :=
  match s with
  | EmptyString => EmptyString
  | String a s' => if blank s then EmptyString else String a (trimEnd s')
  end.

(** [s.trim()] *)
Definition trim (s : string) : string := trimEnd (trimStart s).

(** [s.replace(p, '')]: removes the first occurrence of [p] *)
Fixpoint remove_first (p s : string) : string :=
  if startsWith p s then slice (String.length p) s
  else match s with
       | EmptyString => EmptyString
       | String a s' => String a (remove_first p s')
       end.

(** Truthiness of a string and of a number *)
Definition truthy_string (s : string) : bool :=
  match s with EmptyString => false | _ => true end.

Definition truthy_num (n : Z) : bool := negb (Z.eqb n 0).

(** [x || d] on an optional number: [undefined] and [0] give [d] *)
Definition or_num (x : option Z) (d : Z) : Z :=
  match x with
  | Some n => if truthy_num n then n else d
  | None => d
  end.

(** [n.toString()] on an integer *)
Definition toString (n : Z) : string := pretty n.

End Js.

(** ** Data model *)

(** The sender of an update ([ctx.from]). *)
Record User := {
  user_id : Z;
  tg_username : option string;
  first_name : string;
  last_name : option string;
  language_code : option string;
}.

(** [SessionData] of [src/types/bot.types.ts]; every field is optional
    there.  [notificationsEnabled] is the one extra key the handlers use
    through the index signature. *)
Inductive UserState := idle | waiting_input | in_conversation.

Global Instance UserState_eq_dec : EqDecision UserState.
Proof. solve_decision. Defined.

Record SessionData := {
  userId : option Z;
  username : option string;
  firstName : option string;
  lastName : option string;
  languageCode : option string;
  userState : option UserState;
  lastActivity : option Z;
  messageCount : option Z;
  joinedAt : option Z;
  notificationsEnabled : option bool;
}.

(** What an update carries.  Only updates that belong to a chat are
    modelled (messages, channel posts, button presses on chat messages). *)
Inductive Payload :=
| MessageText (text : string)
| MessagePhoto
| MessageDocument
| MessageSticker
| MessageVoice
| CallbackQuery (data : option string)
| OtherUpdate.

(** What the process reports about itself while an update is handled:
    [process.uptime()] in whole seconds, [process.memoryUsage().heapUsed],
    [new Date().toLocaleString()] and the rendered debug object. *)
Record Process := {
  uptime : Z;
  heapUsed : Z;
  localeString : string;
  debugInfo : string;
}.

(** One update together with the value [Date.now()] returns while it is
    processed. *)
Record Update := {
  from : option User;
  chat_id : Z;
  payload : Payload;
  now : Z;
  proc : Process;
}.

(** Inline keyboards ([KeyboardLayout]) *)
Inductive Button :=
| CallbackButton (text callback_data : string)
| WebAppButton (text url : string).

Definition Keyboard := list (list Button).

Record Other := {
  parse_mode : option string;
  reply_markup : option Keyboard;
}.

Definition no_other : Other := {| parse_mode := None; reply_markup := None |}.
Definition html : Other := {| parse_mode := Some "HTML"; reply_markup := None |}.
Definition markup (k : Keyboard) : Other :=
  {| parse_mode := None; reply_markup := Some k |}.
Definition html_markup (k : Keyboard) : Other :=
  {| parse_mode := Some "HTML"; reply_markup := Some k |}.

(** Calls to the Bot API made through [ctx] *)
Inductive ApiCall :=
| sendMessage (text : string) (other : Other)
| editMessageText (text : string) (other : Other)
| answerCallbackQuery.

(** An attempted call and whether the transport accepted it *)
Record Attempt := { call : ApiCall; delivered : bool }.

(** A thrown [Error] object *)
Record JsError := { name : string; message : string }.

Inductive Level := error | warn | info | console_error.
Record LogEntry := { level : Level; line : string }.

(** The rate-limit record [{ count, resetTime }] *)
Record RateLimit := { count : Z; resetTime : Z }.

(** What the registration endpoint answers to [post] *)
Inductive PostOutcome :=
| PostReturns (status : option Z) (data : string)
| PostThrows (e : JsError).

(** Resolved configuration: [botConfig], [adminConfig], the banned ids of
    the environment, and the time at which [bot.config.ts] was evaluated. *)
Record Config := {
  environment : string;
  rateLimit_window : Z;
  rateLimit_max : Z;
  adminIds : list Z;
  bannedUsers : list Z;
  loadTime : Z;
}.

(** The handlers registered in [src/index.ts] *)
Inductive HandlerName :=
| h_start | h_help | h_settings | h_about | h_cancel
| h_stats | h_broadcast | h_logs | h_debug
| h_callback | h_text | h_photo | h_document | h_sticker | h_voice.

(** Everything an update can read or change.
    - [rateLimitStore]: the [Map] captured by the rate-limit middleware;
    - [sessionStorage]: the in-memory storage of the session plugin, keyed
      by the chat id;
    - [ctx_session]: the [session] property of the context object of the
      update being processed ([None] while the property is not installed);
    - [outbox], [logs]: API calls attempted and logger calls made, oldest
      first;
    - [entered]: ghost record of the handlers whose body was entered;
    - [transport], [backend]: what the next API calls and the next [post]
      calls will answer ([None]: the call succeeds). *)
Record World := {
  rateLimitStore : gmap string RateLimit;
  sessionStorage : gmap string SessionData;
  ctx_session : option SessionData;
  outbox : list Attempt;
  logs : list LogEntry;
  entered : list HandlerName;
  transport : list (option JsError);
  backend : list PostOutcome;
}.

Definition set_rateLimitStore (m : gmap string RateLimit) (w : World) : World :=
  {| rateLimitStore := m; sessionStorage := sessionStorage w;
     ctx_session := ctx_session w; outbox := outbox w; logs := logs w;
     entered := entered w; transport := transport w; backend := backend w |}.

Definition set_sessionStorage (m : gmap string SessionData) (w : World) : World :=
  {| rateLimitStore := rateLimitStore w; sessionStorage := m;
     ctx_session := ctx_session w; outbox := outbox w; logs := logs w;
     entered := entered w; transport := transport w; backend := backend w |}.

Definition set_ctx_session (s : option SessionData) (w : World) : World :=
  {| rateLimitStore := rateLimitStore w; sessionStorage := sessionStorage w;
     ctx_session := s; outbox := outbox w; logs := logs w;
     entered := entered w; transport := transport w; backend := backend w |}.

Definition set_outbox (o : list Attempt) (t : list (option JsError)) (w : World) : World :=
  {| rateLimitStore := rateLimitStore w; sessionStorage := sessionStorage w;
     ctx_session := ctx_session w; outbox := o; logs := logs w;
     entered := entered w; transport := t; backend := backend w |}.

Definition set_logs (l : list LogEntry) (w : World) : World :=
  {| rateLimitStore := rateLimitStore w; sessionStorage := sessionStorage w;
     ctx_session := ctx_session w; outbox := outbox w; logs := l;
     entered := entered w; transport := transport w; backend := backend w |}.

Definition set_entered (h : list HandlerName) (w : World) : World :=
  {| rateLimitStore := rateLimitStore w; sessionStorage := sessionStorage w;
     ctx_session := ctx_session w; outbox := outbox w; logs := logs w;
     entered := h; transport := transport w; backend := backend w |}.

Definition set_backend (b : list PostOutcome) (w : World) : World :=
  {| rateLimitStore := rateLimitStore w; sessionStorage := sessionStorage w;
     ctx_session := ctx_session w; outbox := outbox w; logs := logs w;
     entered := entered w; transport := transport w; backend := b |}.

(** ** Asynchronous computations: state passing with exceptions *)

Inductive Outcome (A : Type) :=
| Returned (a : A)
| Thrown (e : JsError).
Arguments Returned {A} a.
Arguments Thrown {A} e.

Definition Async (A : Type) : Type := World → Outcome A * World.

Definition ret {A} (a : A) : Async A := λ w, (Returned a, w).

Definition bind {A B} (m : Async A) (k : A → Async B) : Async B :=
  λ w, match m w with
       | (Returned a, w') => k a w'
       | (Thrown e, w') => (Thrown e, w')
       end.

Definition throw {A} (e : JsError) : Async A := λ w, (Thrown e, w).

(** [try { body } catch (e) { handler e }] *)
Definition try_catch {A} (body : Async A) (handler : JsError → Async A) : Async A :=
  λ w, match body w with
       | (Returned a, w') => (Returned a, w')
       | (Thrown e, w') => handler e w'
       end.

Notation "'do' x <- m ; k" := (bind m (λ x, k))
  (at level 100, x name, m at level 99, k at level 200, right associativity,
   format "'[v' 'do'  x  <-  m ; '/' k ']'").
Notation "'await' m ; k" := (bind m (λ _, k))
  (at level 100, m at level 99, k at level 200, right associativity,
   format "'[v' 'await'  m ; '/' k ']'").

Definition skip : Async unit := ret tt.

(** The primitive effects *)

Definition api (c : ApiCall) : Async unit :=
  λ w, match transport w with
       | Some e :: rest =>
           (Thrown e, set_outbox (outbox w ++ [{| call := c; delivered := false |}]) rest w)
       | None :: rest =>
           (Returned tt, set_outbox (outbox w ++ [{| call := c; delivered := true |}]) rest w)
       | [] =>
           (Returned tt, set_outbox (outbox w ++ [{| call := c; delivered := true |}]) [] w)
       end.

(** [ctx.reply(text, other)] *)
Definition reply (text : string) (other : Other) : Async unit :=
  api (sendMessage text other).

Definition log (l : Level) (s : string) : Async unit :=
  λ w, (Returned tt, set_logs (logs w ++ [{| level := l; line := s |}]) w).

(** [logBotEvent] and [logUserAction] of [src/utils/logger.ts] *)
Definition logBotEvent (event : string) : Async unit :=
  log info ("Bot Event: " +:+ event).

Definition logUserAction (action : string) : Async unit :=
  log info ("User Action: " +:+ action).

Definition get_session : Async (option SessionData) :=
  λ w, (Returned (ctx_session w), w).

Definition put_session (s : option SessionData) : Async unit :=
  λ w, (Returned tt, set_ctx_session s w).

Definition enter (h : HandlerName) : Async unit :=
  λ w, (Returned tt, set_entered (entered w ++ [h]) w).

(** [post(url, data)] of [src/services/api/post.ts]: the answer comes from
    the endpoint; with nothing scripted it answers [201]. *)
Definition post : Async (option Z * string) :=
  λ w, match backend w with
       | PostReturns st d :: rest => (Returned (st, d), set_backend rest w)
       | PostThrows e :: rest => (Thrown e, set_backend rest w)
       | [] => (Returned (Some 201, ""), w)
       end.

(** ** Configuration data of [src/config/bot.config.ts] *)

Module messages.

Definition welcome : string :=
"
🤖 <b>Welcome to the Bot!</b>

Hello! 👋 I'm here to help you with hot reload enabled!

💡 <b>Available commands:</b>
/help - Show help information
/settings - Bot settings
/about - About this bot

🚀 <b>Get started with /help</b>
🔥 <b>Hot reload is active!</b>
  ".

Definition help : string :=
"
<b>🛠 Bot Commands:</b>

/start - Start the bot
/help - Show this help
/settings - Bot settings
/about - About this bot
/cancel - Cancel operation

<b>💡 Tips:</b>
• Use buttons for navigation
• Type /cancel to stop any operation
• Report issues with /support
  ".

Definition about : string :=
"
<b>🤖 About This Bot</b>

This is a Grammy.js Telegram bot template with:

✅ TypeScript support
✅ tsx for fast development
✅ Rate limiting
✅ Session management
✅ Error handling
✅ Conversation flows

Built with ❤️ using Grammy.js framework
  ".

Definition settingsMenu : string :=
"
<b>⚙️ Bot Settings</b>

Current settings:
• Language: English
• Notifications: Enabled

Use the buttons below to change settings:
  ".

Definition error : string :=
    "❌ An error occurred. Please try again or contact support.".

Definition maintenance : string :=
    "🛠 Bot is under maintenance. Please try again later.".

Definition rateLimitExceeded : string :=
    "⚠️ Too many requests! Please wait before sending another command.".

Definition invalidCommand : string :=
    "❓ I don't understand that command. Use /help to see available commands.".

Definition cancelled : string :=
    "✅ Operation cancelled.".

End messages.

Module keyboards.

Definition mainMenu : Keyboard :=
  [ [ CallbackButton "⚙️ Settings" "action:settings";
      CallbackButton "📋 Help" "action:help" ];
    [ CallbackButton "ℹ️ About" "action:about" ] ].

Definition settings : Keyboard :=
  [ [ CallbackButton "🌐 Language" "settings:language";
      CallbackButton "🔔 Notifications" "settings:notifications" ];
    [ CallbackButton "🔙 Back" "action:main" ] ].

Definition language : Keyboard :=
  [ [ CallbackButton "🇺🇸 English" "lang:en";
      CallbackButton "🇷🇺 Русский" "lang:ru" ];
    [ CallbackButton "🇪🇸 Español" "lang:es";
      CallbackButton "🇫🇷 Français" "lang:fr" ];
    [ CallbackButton "🔙 Back" "action:settings" ] ].

Definition backButton : Keyboard :=
  [ [ CallbackButton "🔙 Back" "action:back" ] ].

Definition cancel : Keyboard :=
  [ [ CallbackButton "❌ Cancel" "action:cancel" ] ].

End keyboards.

(** [defaultSessionData]: the object literal is evaluated once, when the
    module is loaded, so both timestamps hold [loadTime]. *)
Definition defaultSessionData (cfg : Config) : SessionData :=
  {| userId := None; username := None; firstName := None; lastName := None;
     languageCode := Some "en";
     userState := Some idle;
     lastActivity := Some (loadTime cfg);
     messageCount := Some 0;
     joinedAt := Some (loadTime cfg);
     notificationsEnabled := None |}.

(** ** [src/middleware/error.middleware.ts] *)

Inductive BotErrorType :=
| RATE_LIMIT_EXCEEDED
| USER_BANNED
| INVALID_COMMAND
| NETWORK_ERROR
| CONFIGURATION_ERROR
| UNKNOWN_ERROR.

(** The keyword cascade of [handleError]: the error type and the message
    for the user are chosen together. *)
Definition classify (msg : string) : BotErrorType * string :=
  if Js.includes "rate limit" msg then
    (RATE_LIMIT_EXCEEDED, "⚠️ Too many requests! Please wait before sending another command.")
  else if Js.includes "banned" msg then
    (USER_BANNED, "🚫 You are banned from using this bot.")
  else if Js.includes "network" msg then
    (NETWORK_ERROR, "🌐 Network error. Please try again in a moment.")
  else if Js.includes "configuration" msg then
    (CONFIGURATION_ERROR, "⚙️ Bot configuration error. Please contact support.")
  else
    (UNKNOWN_ERROR, "❌ An error occurred. Please try again later.").

Definition retryKeyboard : Keyboard :=
  [ [ CallbackButton "🔄 Try Again" "action:retry" ];
    [ CallbackButton "📞 Support" "action:support" ] ].

(** [notifyAdmins]: one logger call per configured admin id *)
Fixpoint notifyAdmins (ids : list Z) : Async unit :=
  match ids with
  | [] => skip
  | _ :: rest =>
      await log info "Would notify admin";
      notifyAdmins rest
  end.

Definition is_critical (t : BotErrorType) : bool :=
  match t with
  | CONFIGURATION_ERROR | UNKNOWN_ERROR => true
  | _ => false
  end.

Definition handleError (cfg : Config) (err : JsError) : Async unit :=
  await log error "Bot error occurred";
  let '(errorType, userMessage) := classify (message err) in
  await try_catch
    (reply userMessage (markup retryKeyboard))
    (λ replyError, log error "Failed to send error message to user");
  if is_critical errorType then notifyAdmins (adminIds cfg) else skip.

Definition errorMiddleware (cfg : Config) (next : Async unit) : Async unit :=
  try_catch next (λ err, handleError cfg err).

(** The assignments of [userValidationMiddleware] to the session *)
Definition touch (user : User) (t : Z) (s : SessionData) : SessionData :=
  {| userId := Some (user_id user);
     username := tg_username user;
     firstName := Some (first_name user);
     lastName := last_name user;
     languageCode := language_code user;
     userState := userState s;
     lastActivity := Some t;
     messageCount := Some (Js.or_num (messageCount s) 0 + 1);
     joinedAt := joinedAt s;
     notificationsEnabled := notificationsEnabled s |}.

Definition userValidationMiddleware (cfg : Config) (u : Update)
    (next : Async unit) : Async unit :=
  match from u with
  | None =>
      await log warn "Message received without user information";
      skip
  | Some user =>
      if bool_decide (user_id user ∈ bannedUsers cfg) then
        await log info "Banned user attempted to use bot";
        await reply "🚫 You are banned from using this bot." no_other;
        skip
      else
        do s <- get_session;
        await match s with
              | Some sd => put_session (Some (touch user (now u) sd))
              | None => skip
              end;
        next
  end.

(** [ctx.message?.text] *)
Definition message_text (u : Update) : option string :=
  match payload u with
  | MessageText text => Some text
  | _ => None
  end.

Definition validCommands : list string :=
  ["start"; "help"; "settings"; "about"; "cancel"].

Definition helpButton : Keyboard :=
  [ [ CallbackButton "📋 Help" "action:help" ] ].

Definition commandValidationMiddleware (u : Update) (next : Async unit)
    : Async unit :=
  match message_text u with
  | Some text =>
      if Js.startsWith "/" text then
        let command := Js.slice 1 (fst (Js.split " " text)) in
        if bool_decide (command ∈ validCommands) then next
        else
          await log info "Invalid command received";
          await reply "❓ Unknown command. Use /help to see available commands."
                  (markup helpButton);
          skip
      else next
  | None => next
  end.

Definition adminMiddleware (cfg : Config) (u : Update) (next : Async unit)
    : Async unit :=
  let userId := user_id <$> from u in
  let allowed :=
    match userId with
    | Some i => Js.truthy_num i && bool_decide (i ∈ adminIds cfg)
    | None => false
    end in
  if negb allowed then
    await reply "❌ You don't have permission to use this command." no_other;
    await log warn "Non-admin attempted to use admin command";
    skip
  else next.

(** ** The middleware installed by [setupMiddleware] in [src/index.ts] *)

(** The key of the rate-limit map:
    [ctx.from?.id?.toString() || 'unknown'] *)
Definition rateLimitKey (u : Update) : string :=
  match from u with
  | Some user =>
      let s := Js.toString (user_id user) in
      if Js.truthy_string s then s else "unknown"
  | None => "unknown"
  end.

Definition store_get (k : string) : Async (option RateLimit) :=
  λ w, (Returned (rateLimitStore w !! k), w).

Definition store_set (k : string) (v : RateLimit) : Async unit :=
  λ w, (Returned tt, set_rateLimitStore (<[k := v]> (rateLimitStore w)) w).

Definition tooManyRequests : string :=
  "‚ö†Ô∏è Too many requests! Please wait before sending another command.".

Definition rateLimitMiddleware (cfg : Config) (u : Update) (next : Async unit)
    : Async unit :=
  let userId := rateLimitKey u in
  let windowDuration := rateLimit_window cfg in
  let maxRequests := rateLimit_max cfg in
  do userLimit <- store_get userId;
  match userLimit with
  | None =>
      await store_set userId {| count := 1; resetTime := now u + windowDuration |};
      next
  | Some l =>
      if now u >? resetTime l then
        await store_set userId {| count := 1; resetTime := now u + windowDuration |};
        next
      else if count l >=? maxRequests then
        await reply tooManyRequests no_other;
        skip
      else
        await store_set userId {| count := count l + 1; resetTime := resetTime l |};
        next
  end.

(** The session plugin of the framework, with [initial] returning a copy of
    [defaultSessionData] and the default in-memory storage keyed by the chat
    id: it installs [ctx.session] from the storage (or from [initial]),
    runs the rest, and writes the session back when the rest returned. *)
Definition storage_read (k : string) : Async (option SessionData) :=
  λ w, (Returned (sessionStorage w !! k), w).

Definition storage_write (k : string) (v : option SessionData) : Async unit :=
  λ w, (Returned tt,
        set_sessionStorage
          (match v with
           | Some s => <[k := s]> (sessionStorage w)
           | None => delete k (sessionStorage w)
           end) w).

Definition session (cfg : Config) (u : Update) (next : Async unit) : Async unit :=
  let key := Js.toString (chat_id u) in
  do stored <- storage_read key;
  await put_session (Some (default (defaultSessionData cfg) stored));
  await next;
  do s <- get_session;
  storage_write key s.

(** The conversations plugin: no conversation is registered, so it hands
    every update on. *)
Definition conversations (next : Async unit) : Async unit := next.

(** ** [src/handlers/commands.handler.ts] *)

(** Reading a property of [ctx.session] while the property is not
    installed *)
Definition typeError (prop : string) : JsError :=
  {| name := "TypeError";
     message := "Cannot read properties of undefined (reading '" +:+ prop +:+ "')" |}.

(** Assigning to a property of [ctx.session] while the session is not
    installed *)
Definition typeErrorSet (prop : string) : JsError :=
  {| name := "TypeError";
     message := "Cannot set properties of undefined (setting '" +:+ prop +:+ "')" |}.

Definition falsy_time (t : option Z) : bool :=
  match t with
  | Some n => negb (Js.truthy_num n)
  | None => true
  end.

Definition set_joined (t : Z) (s : SessionData) : SessionData :=
  {| userId := userId s; username := username s; firstName := firstName s;
     lastName := lastName s; languageCode := languageCode s;
     userState := userState s; lastActivity := lastActivity s;
     messageCount := Some 0;
     joinedAt := Some t;
     notificationsEnabled := notificationsEnabled s |}.

Definition set_userState (st : UserState) (s : SessionData) : SessionData :=
  {| userId := userId s; username := username s; firstName := firstName s;
     lastName := lastName s; languageCode := languageCode s;
     userState := Some st; lastActivity := lastActivity s;
     messageCount := messageCount s; joinedAt := joinedAt s;
     notificationsEnabled := notificationsEnabled s |}.

Definition set_languageCode (l : string) (s : SessionData) : SessionData :=
  {| userId := userId s; username := username s; firstName := firstName s;
     lastName := lastName s; languageCode := Some l;
     userState := userState s; lastActivity := lastActivity s;
     messageCount := messageCount s; joinedAt := joinedAt s;
     notificationsEnabled := notificationsEnabled s |}.

Definition set_notificationsEnabled (b : bool) (s : SessionData) : SessionData :=
  {| userId := userId s; username := username s; firstName := firstName s;
     lastName := lastName s; languageCode := languageCode s;
     userState := userState s; lastActivity := lastActivity s;
     messageCount := messageCount s; joinedAt := joinedAt s;
     notificationsEnabled := Some b |}.

Definition miniAppKeyboard : Keyboard :=
  [ [ WebAppButton "🔗 Open Mini App" "https://app.ton-quant.com" ] ].

Definition startCommand (u : Update) : Async unit :=
  await enter h_start;
  await logUserAction "start_command";
  do s <- get_session;
  match s with
  | None => throw (typeError "joinedAt")
  | Some sd =>
      await (if falsy_time (joinedAt sd)
             then put_session (Some (set_joined (now u) sd))
             else skip);
      let inviterId := (λ t, Js.trim (Js.slice 6 t)) <$> message_text u in
      match inviterId with
      | Some (String a rest) =>
          do req <- post;
          if bool_decide (fst req = Some 201) then
            reply messages.welcome (html_markup miniAppKeyboard)
          else
            reply (snd req) html
      | _ => reply "Please enter your inviter ID" html
      end
  end.

Definition helpCommand : Async unit :=
  await enter h_help;
  await logUserAction "help_command";
  reply messages.help (html_markup keyboards.mainMenu).

Definition settingsCommand : Async unit :=
  await enter h_settings;
  await logUserAction "settings_command";
  reply messages.settingsMenu (html_markup keyboards.settings).

Definition aboutCommand : Async unit :=
  await enter h_about;
  await logUserAction "about_command";
  reply messages.about (html_markup keyboards.backButton).

(** [if (ctx.session) ctx.session.userState = 'idle'] *)
Definition reset_userState : Async unit :=
  do s <- get_session;
  match s with
  | Some sd => put_session (Some (set_userState idle sd))
  | None => skip
  end.

Definition cancelCommand : Async unit :=
  await enter h_cancel;
  await logUserAction "cancel_command";
  await reset_userState;
  reply messages.cancelled (markup keyboards.mainMenu).

Definition statsMessage (p : Process) : string :=
  "
📊 <b>Bot Statistics</b>

👥 <b>Users:</b>
• Total: 0
• Active: 0

💬 <b>Messages:</b>
• Total processed: 0

🕒 <b>System:</b>
• Uptime: " +:+ pretty (uptime p / 3600) +:+ "h "
  +:+ pretty ((uptime p `mod` 3600) / 60) +:+ "m
• Memory: " +:+ pretty ((heapUsed p + 524288) / 1048576) +:+ "MB

<i>Last updated: " +:+ localeString p +:+ "</i>
  ".

Definition statsCommand (u : Update) : Async unit :=
  await enter h_stats;
  await logUserAction "stats_command";
  reply (statsMessage (proc u)) html.

Definition broadcastKeyboard (t : Z) : Keyboard :=
  [ [ CallbackButton "✅ Confirm" ("broadcast:confirm:" +:+ pretty t);
      CallbackButton "❌ Cancel" "action:cancel" ] ].

Definition broadcastCommand (u : Update) : Async unit :=
  await enter h_broadcast;
  await logUserAction "broadcast_command";
  let text := (λ t, Js.trim (Js.remove_first "/broadcast" t)) <$> message_text u in
  match text with
  | Some (String a rest) =>
      reply ("📢 <b>Broadcast Preview:</b>

" +:+ String a rest +:+ "

<i>This would be sent to all users.</i>")
            (html_markup (broadcastKeyboard (now u)))
  | _ =>
      reply "Please provide a message to broadcast.

Usage: /broadcast <message>" no_other
  end.

Definition logsMessage : string :=
  "
📋 <b>Recent Logs</b>

• No recent errors
• System running normally

<i>For detailed logs, check the server console.</i>
  ".

Definition logsCommand : Async unit :=
  await enter h_logs;
  await logUserAction "logs_command";
  reply logsMessage html.

(** ** [src/handlers/callbacks.handler.ts] *)

Definition edit (text : string) (other : Other) : Async unit :=
  api (editMessageText text other).

(** [handleActionCallback]; [action] is [params[0]], absent when the
    payload has no second segment. *)
Definition handleActionCallback (action : option string) : Async unit :=
  if bool_decide (action = Some "main") then
    edit messages.welcome (html_markup keyboards.mainMenu)
  else if bool_decide (action = Some "help") then
    edit messages.help (html_markup keyboards.mainMenu)
  else if bool_decide (action = Some "about") then
    edit messages.about (html_markup keyboards.backButton)
  else if bool_decide (action = Some "settings") then
    edit messages.settingsMenu (html_markup keyboards.settings)
  else if bool_decide (action = Some "back") then
    edit messages.welcome (html_markup keyboards.mainMenu)
  else if bool_decide (action = Some "cancel") then
    await reset_userState;
    edit messages.cancelled (markup keyboards.mainMenu)
  else if bool_decide (action = Some "retry") then
    edit "🔄 Please try your last action again." (markup keyboards.mainMenu)
  else if bool_decide (action = Some "support") then
    edit "📞 <b>Support</b>

If you need help, please contact the administrators."
         (html_markup keyboards.backButton)
  else
    edit "❓ Unknown action." (markup keyboards.mainMenu).

Definition notificationsMessage (enabled : bool) : string :=
  "🔔 <b>Notifications</b>

Notifications are now <b>" +:+ (if enabled then "enabled" else "disabled") +:+ "</b>.".

Definition handleSettingsCallback (setting : option string) : Async unit :=
  if bool_decide (setting = Some "language") then
    edit "🌐 <b>Language Settings</b>

Select your preferred language:" (html_markup keyboards.language)
  else if bool_decide (setting = Some "notifications") then
    do s <- get_session;
    match s with
    | None => throw (typeErrorSet "notificationsEnabled")
    | Some sd =>
        let notificationsEnabled := default true (notificationsEnabled sd) in
        await put_session (Some (set_notificationsEnabled (negb notificationsEnabled) sd));
        edit (notificationsMessage (negb notificationsEnabled))
             (html_markup keyboards.settings)
    end
  else
    edit "❓ Unknown setting." (markup keyboards.settings).

(** The members every object literal inherits: indexing [languages] with
    one of these names yields a value that is not falsy. *)
Definition inherited_members : list (string * string) :=
  [ ("constructor", "function Object() { [native code] }");
    ("toString", "function toString() { [native code] }");
    ("toLocaleString", "function toLocaleString() { [native code] }");
    ("valueOf", "function valueOf() { [native code] }");
    ("hasOwnProperty", "function hasOwnProperty() { [native code] }");
    ("isPrototypeOf", "function isPrototypeOf() { [native code] }");
    ("propertyIsEnumerable", "function propertyIsEnumerable() { [native code] }");
    ("__defineGetter__", "function __defineGetter__() { [native code] }");
    ("__defineSetter__", "function __defineSetter__() { [native code] }");
    ("__lookupGetter__", "function __lookupGetter__() { [native code] }");
    ("__lookupSetter__", "function __lookupSetter__() { [native code] }");
    ("__proto__", "[object Object]") ].

Definition languages : list (string * string) :=
  [ ("en", "🇺🇸 English");
    ("ru", "🇷🇺 Русский");
    ("es", "🇪🇸 Español");
    ("fr", "🇫🇷 Français") ].

Fixpoint assoc (k : string) (l : list (string * string)) : option string :=
  match l with
  | [] => None
  | (k', v) :: rest => if decide (k = k') then Some v else assoc k rest
  end.

(** [languages[language]], the value rendered as the template prints it *)
Definition languages_get (language : option string) : option string :=
  match language with
  | Some l => assoc l (languages ++ inherited_members)
  | None => None
  end.

Definition set_language : option string → Async unit :=
  λ language,
    do s <- get_session;
    match s, language with
    | Some sd, Some l => put_session (Some (set_languageCode l sd))
    | _, _ => skip
    end.

Definition handleLanguageCallback (language : option string) : Async unit :=
  match languages_get language with
  | None => edit "❓ Unknown language." (markup keyboards.language)
  | Some languageName =>
      await set_language language;
      await logUserAction "language_change";
      edit ("✅ Language changed to " +:+ languageName) (markup keyboards.settings)
  end.

(** [const [subAction, timestamp] = params] *)
Definition handleBroadcastCallback (params : list string) : Async unit :=
  let subAction := head params in
  if bool_decide (subAction = Some "confirm") then
    await edit "✅ <b>Broadcast Sent</b>

Message has been sent to all users." html;
    logUserAction "broadcast_sent"
  else skip.

(** The [switch] over the first segment of the payload *)
Definition dispatchCallback (action : string) (params : list string) : Async unit :=
  if bool_decide (action = "action") then handleActionCallback (head params)
  else if bool_decide (action = "settings") then handleSettingsCallback (head params)
  else if bool_decide (action = "lang") then handleLanguageCallback (head params)
  else if bool_decide (action = "broadcast") then handleBroadcastCallback params
  else edit "❓ Unknown action. Please try again." (markup keyboards.mainMenu).

Definition callbackData (u : Update) : option string :=
  match payload u with
  | CallbackQuery d => d
  | _ => None
  end.

Definition callbackQueryHandler (u : Update) : Async unit :=
  await enter h_callback;
  match callbackData u with
  | Some data =>
      if negb (Js.truthy_string data) then skip
      else
        await logUserAction "callback_query";
        await api answerCallbackQuery;
        let '(action, params) := Js.split ":" data in
        try_catch
          (dispatchCallback action params)
          (λ err,
            await log console_error "Error handling callback:";
            edit "❌ An error occurred. Please try again." (markup keyboards.mainMenu))
  | None => skip
  end.

(** ** The handlers written inline in [src/index.ts] *)

Definition debugCommand (u : Update) : Async unit :=
  await enter h_debug;
  reply ("üêõ <b>Debug Info:</b>

<pre>" +:+ debugInfo (proc u) +:+ "</pre>") html.

Definition textKeyboard : Keyboard :=
  [ [ CallbackButton "üìã Help" "action:help" ];
    [ CallbackButton "‚öôÔ∏è Settings" "action:settings" ] ].

Definition textHandler (text : string) : Async unit :=
  await enter h_text;
  if Js.startsWith "/" text then skip
  else
    await logBotEvent "text_message_received";
    do s <- get_session;
    if bool_decide (s ≫= userState = Some waiting_input) then
      reply "‚úÖ Input received! Use /cancel to stop or continue with your action." no_other
    else
      reply "üí¨ I received your message! Use /help to see what I can do." (markup textKeyboard).

Definition photoHandler : Async unit :=
  await enter h_photo;
  await logBotEvent "photo_received";
  reply "üì∏ Nice photo! I can see it but I don't process images yet." no_other.

Definition documentHandler : Async unit :=
  await enter h_document;
  await logBotEvent "document_received";
  reply "üìÑ Document received! I don't process files yet, but thanks for sharing." no_other.

Definition stickerHandler : Async unit :=
  await enter h_sticker;
  await logBotEvent "sticker_received";
  reply "üòÑ Great sticker! üëç" no_other.

Definition voiceHandler : Async unit :=
  await enter h_voice;
  await logBotEvent "voice_received";
  reply "üé§ Voice message received! I don't process audio yet." no_other.

(** ** Routing, as registered by [setupCommands], [setupCallbackHandlers]
    and [setupMessageHandlers] *)

(** [bot.command(name, ...)] fires on a text message whose first word is
    [/name]. *)
Definition is_command (name : string) (u : Update) : bool :=
  match message_text u with
  | Some text => bool_decide (fst (Js.split " " text) = "/" +:+ name)
  | None => false
  end.

Definition route (cfg : Config) (u : Update) : Async unit :=
  if is_command "start" u then startCommand u
  else if is_command "help" u then helpCommand
  else if is_command "settings" u then settingsCommand
  else if is_command "about" u then aboutCommand
  else if is_command "cancel" u then cancelCommand
  else if is_command "stats" u then adminMiddleware cfg u (statsCommand u)
  else if is_command "broadcast" u then adminMiddleware cfg u (broadcastCommand u)
  else if is_command "logs" u then adminMiddleware cfg u logsCommand
  else if bool_decide (environment cfg = "development") && is_command "debug" u
       then adminMiddleware cfg u (debugCommand u)
  else match payload u with
       | CallbackQuery (Some _) => callbackQueryHandler u
       | MessageText text => textHandler text
       | MessagePhoto => photoHandler
       | MessageDocument => documentHandler
       | MessageSticker => stickerHandler
       | MessageVoice => voiceHandler
       | _ => skip
       end.

(** The stack of [setupMiddleware], outermost first, around the routes.
    Every update gets a context object of its own, on which no [session]
    property is installed yet. *)
Definition handleUpdate (cfg : Config) (u : Update) : Async unit :=
  await put_session None;
  errorMiddleware cfg
    (userValidationMiddleware cfg u
      (rateLimitMiddleware cfg u
        (session cfg u
          (conversations
            (commandValidationMiddleware u
              (route cfg u)))))).

(** Processing updates one after the other; an error that leaves the
    stack is reported by [bot.catch], which logs it. *)
Definition deliver (cfg : Config) (u : Update) (w : World) : World :=
  match handleUpdate cfg u w with
  | (Returned _, w') => w'
  | (Thrown _, w') =>
      set_logs (logs w' ++ [{| level := error; line := "Error in bot update handling" |}]) w'
  end.

Definition run (cfg : Config) (us : list Update) (w : World) : World :=
  foldl (λ w u, deliver cfg u w) w us.

(** The world of a freshly started process *)
Definition boot : World :=
  {| rateLimitStore := ∅; sessionStorage := ∅; ctx_session := None;
     outbox := []; logs := []; entered := [];
     transport := []; backend := [] |}.

(** ** Vocabulary of the statements *)

(** The API calls attempted so far, oldest first *)
Definition calls (w : World) : list ApiCall := call <$> outbox w.

(** The transport accepts the next API call. *)
Definition next_call_ok (w : World) : bool :=
  match transport w with
  | Some _ :: _ => false
  | _ => true
  end.

(** The transport accepts every API call to come. *)
Definition transport_ok (w : World) : Prop := Forall (λ o, o = None) (transport w).

(** A computation that leaves the rate-limit map as it found it *)
Definition keeps_store {A} (m : Async A) : Prop :=
  ∀ w, rateLimitStore (m w).2 = rateLimitStore w.

(** The read-modify-write of the rate-limit middleware on the map alone:
    whether the request passes, and the map afterwards. *)
Definition admission (cfg : Config) (userId : string) (t : Z)
    (store : gmap string RateLimit) : bool * gmap string RateLimit :=
  match store !! userId with
  | None =>
      (true, <[userId := {| count := 1; resetTime := t + rateLimit_window cfg |}]> store)
  | Some l =>
      if t >? resetTime l then
        (true, <[userId := {| count := 1; resetTime := t + rateLimit_window cfg |}]> store)
      else if count l >=? rateLimit_max cfg then (false, store)
      else (true, <[userId := {| count := count l + 1; resetTime := resetTime l |}]> store)
  end.

(** Everything behind the rate limiter *)
Definition dispatchStack (cfg : Config) (u : Update) : Async unit :=
  session cfg u (conversations (commandValidationMiddleware u (route cfg u))).

(** The sender is present and not banned. *)
Definition validated (cfg : Config) (u : Update) : Prop :=
  ∃ user, from u = Some user ∧ user_id user ∉ bannedUsers cfg.


(** The update starts a window of its own: its sender has no record, or
    one whose reset time has passed. *)
Definition opens_window (u : Update) (w : World) : Prop :=
  match rateLimitStore w !! rateLimitKey u with
  | Some l => now u > resetTime l
  | None => True
  end.

(** The state of the bot proper: what remains when the traffic with the
    outside (API calls, log lines) is left out. *)
Definition state_of (w : World)
    : gmap string RateLimit * gmap string SessionData * list HandlerName :=
  (rateLimitStore w, sessionStorage w, entered w).

(** A computation that only talks: it sends and logs, and changes neither
    the stores nor the context, and enters no handler. *)
Definition quiet {A} (m : Async A) : Prop :=
  ∀ w, state_of (m w).2 = state_of w ∧ ctx_session (m w).2 = ctx_session w.

(** A session whose counters are those of [defaultSessionData]: no
    message counted, last activity at the load time, and (unless the load
    time is 0) joined at the load time. *)
Definition frozen (cfg : Config) (s : SessionData) : Prop :=
  messageCount s = Some 0
  ∧ lastActivity s = Some (loadTime cfg)
  ∧ (loadTime cfg ≠ 0 → joinedAt s = Some (loadTime cfg)).

Definition frozen_opt (cfg : Config) (o : option SessionData) : Prop :=
  from_option (frozen cfg) True o.

(** Every stored session, and the session on the context, is frozen. *)
Definition sessions_frozen (cfg : Config) (w : World) : Prop :=
  (∀ (k : string) (s : SessionData), sessionStorage w !! k = Some s → frozen cfg s)
  ∧ frozen_opt cfg (ctx_session w).

(** [m] keeps the sessions frozen, and what it returns satisfies [Q]. *)
Definition safe (cfg : Config) {A} (m : Async A) (Q : A → Prop) : Prop :=
  ∀ w, sessions_frozen cfg w →
    sessions_frozen cfg (m w).2
    ∧ match (m w).1 with
      | Returned a => Q a
      | Thrown _ => True
      end.

(** The handlers a sender can get to: all but the admin and debug
    commands. *)
Definition public_handler (h : HandlerName) : bool :=
  match h with
  | h_stats | h_broadcast | h_logs | h_debug => false
  | _ => true
  end.

(** The parse mode of a call: [None] for a call without the key *)
Definition parse_mode_of (c : ApiCall) : option string :=
  match c with
  | sendMessage _ o | editMessageText _ o => parse_mode o
  | answerCallbackQuery => None
  end.

(** The transformer installed by [createBot]: a payload that has the key
    [parse_mode] gets ['HTML'] when the value is falsy. *)
Definition defaultParseMode (c : ApiCall) : ApiCall :=
  let fill (o : Other) :=
    match parse_mode o with
    | Some p =>
        {| parse_mode := Some (if Js.truthy_string p then p else "HTML");
           reply_markup := reply_markup o |}
    | None => o
    end in
  match c with
  | sendMessage t o => sendMessage t (fill o)
  | editMessageText t o => editMessageText t (fill o)
  | answerCallbackQuery => answerCallbackQuery
  end.

(** A session as the handlers leave it: idle, with a language code that
    the language table answers. *)
Definition tidy_session (s : SessionData) : Prop :=
  userState s = Some idle
  ∧ ∃ l name, languageCode s = Some l ∧ languages_get (Some l) = Some name.

(** The discipline of a world: tidy sessions in the storage and on the
    context, only public handlers entered, only calls sent as HTML or
    without parse mode. *)
Definition tidy (w : World) : Prop :=
  (∀ (k : string) (s : SessionData), sessionStorage w !! k = Some s → tidy_session s)
  ∧ from_option tidy_session True (ctx_session w)
  ∧ Forall (λ h, public_handler h = true) (entered w)
  ∧ Forall (λ c, parse_mode_of c = None ∨ parse_mode_of c = Some "HTML") (calls w).

(** [m] keeps the discipline, and what it returns satisfies [Q]. *)
Definition orderly {A} (m : Async A) (Q : A → Prop) : Prop :=
  ∀ w, tidy w →
    tidy (m w).2
    ∧ match (m w).1 with
      | Returned a => Q a
      | Thrown _ => True
      end.

(** [m] leaves the component [f] of the world as it found it. *)
Definition leaves {B} (f : World → B) {A} (m : Async A) : Prop :=
  ∀ w, f (m w).2 = f w.

(** [m] leaves the component [f] alone or moves it by one [step]. *)
Definition once {B} (f : World → B) (step : B → B → Prop) {A} (m : Async A) : Prop :=
  ∀ w, f (m w).2 = f w ∨ step (f w) (f (m w).2).

(** One more handler entered *)
Definition one_more (before after : list HandlerName) : Prop :=
  ∃ h, after = before ++ [h].

(** What the start handler takes for the inviter id:
    [ctx.message?.text?.slice(6).trim()] *)
Definition inviterId (u : Update) : option string :=
  (λ t, Js.trim (Js.slice 6 t)) <$> message_text u.

(** One answer of the registration endpoint consumed, by [/start] with an
    inviter id *)
Definition one_post (u : Update) (before after : list PostOutcome) : Prop :=
  is_command "start" u = true
  ∧ (∃ a rest, inviterId u = Some (String a rest))
  ∧ after = tail before.

(** The callback payloads of the buttons of a keyboard *)
Definition payloads (k : Keyboard) : list string :=
  omap (λ b, match b with
             | CallbackButton _ d => Some d
             | WebAppButton _ _ => None
             end) (concat k).

(** The keyboards of the sources: those of [bot.config.ts] and those
    written in the handlers and middleware; the broadcast preview carries
    the time [t] of the command. *)
Definition all_keyboards (t : Z) : list Keyboard :=
  [ keyboards.mainMenu; keyboards.settings; keyboards.language;
    keyboards.backButton; keyboards.cancel; retryKeyboard; helpButton;
    textKeyboard; miniAppKeyboard; broadcastKeyboard t ].

(** The texts with which the callback handlers answer what they do not
    know, or an error *)
Definition fallback_texts : list string :=
  [ "❓ Unknown action. Please try again."; "❓ Unknown action.";
    "❓ Unknown setting."; "❓ Unknown language.";
    "❌ An error occurred. Please try again." ].

(** A freshly started process for which the failures [t] of the transport
    and the answers [b] of the registration endpoint are scripted; [boot]
    is the one with nothing scripted. *)
Definition started (t : list (option JsError)) (b : list PostOutcome) : World :=
  {| rateLimitStore := ∅; sessionStorage := ∅; ctx_session := None;
     outbox := []; logs := []; entered := [];
     transport := t; backend := b |}.

(** The number of operator alerts in the log *)
Definition alerts (w : World) : nat :=
  length (filter (λ l, line l = "Would notify admin") (logs w)).

(** ** Sample data for the concrete runs *)

Module Sample.

(** Window of one minute, twenty requests, admin 1, banned 13, configuration
    loaded at time 1000. *)
Definition cfg : Config :=
  {| environment := "development";
     rateLimit_window := 60000; rateLimit_max := 20;
     adminIds := [1]; bannedUsers := [13]; loadTime := 1000 |}.

Definition process : Process :=
  {| uptime := 0; heapUsed := 0; localeString := ""; debugInfo := "" |}.

Definition user (i : Z) : User :=
  {| user_id := i; tg_username := None; first_name := "A";
     last_name := None; language_code := None |}.

(** User [i] writes [text] in the private chat at time [t]. *)
Definition msg (i : Z) (text : string) (t : Z) : Update :=
  {| from := Some (user i); chat_id := i; payload := MessageText text;
     now := t; proc := process |}.

(** User [i] presses a button with payload [data] at time [t]. *)
Definition press (i : Z) (data : string) (t : Z) : Update :=
  {| from := Some (user i); chat_id := i;
     payload := CallbackQuery (Some data); now := t; proc := process |}.

(** A post without sender *)
Definition anonymous (text : string) (t : Z) : Update :=
  {| from := None; chat_id := -100; payload := MessageText text;
     now := t; proc := process |}.

(** A failure of the transport *)
Definition blocked : JsError :=
  {| name := "GrammyError";
     message := "Call to 'sendMessage' failed! (403: Forbidden: bot was blocked by the user)" |}.

(** The world after boot in which the next API call fails *)
Definition offline : World :=
  {| rateLimitStore := ∅; sessionStorage := ∅; ctx_session := None;
     outbox := []; logs := []; entered := [];
     transport := [Some blocked]; backend := [] |}.

End Sample.

(** * Properties *)

(** ** The rate-limit map is touched by the limiter only *)

Lemma keeps_ret {A} (a : A) : keeps_store (ret a).
Proof. by intros w. Qed.

Lemma keeps_throw {A} e : keeps_store (@throw A e).
Proof. by intros w. Qed.

Lemma keeps_bind {A B} (m : Async A) (k : A → Async B) :
  keeps_store m → (∀ a, keeps_store (k a)) → keeps_store (bind m k).
Proof.
  intros Hm Hk w. unfold bind. specialize (Hm w).
  destruct (m w) as [[a|e] w']; simpl in *; [|done].
  by rewrite Hk.
Qed.

Lemma keeps_try_catch {A} (m : Async A) (h : JsError → Async A) :
  keeps_store m → (∀ e, keeps_store (h e)) → keeps_store (try_catch m h).
Proof.
  intros Hm Hh w. unfold try_catch. specialize (Hm w).
  destruct (m w) as [[a|e] w']; simpl in *; [done|].
  by rewrite Hh.
Qed.

Lemma keeps_api c : keeps_store (api c).
Proof. intros w. unfold api. by destruct (transport w) as [|[e|] rest]. Qed.

Lemma keeps_log l s : keeps_store (log l s).
Proof. by intros w. Qed.

Lemma keeps_get_session : keeps_store get_session.
Proof. by intros w. Qed.

Lemma keeps_put_session s : keeps_store (put_session s).
Proof. by intros w. Qed.

Lemma keeps_enter h : keeps_store (enter h).
Proof. by intros w. Qed.

Lemma keeps_post : keeps_store post.
Proof. intros w. unfold post. by destruct (backend w) as [|[st d|e] rest]. Qed.

Lemma keeps_storage_read k : keeps_store (storage_read k).
Proof. by intros w. Qed.

Lemma keeps_storage_write k v : keeps_store (storage_write k v).
Proof. by intros w. Qed.

Create HintDb keeps.
#[local] Hint Resolve @keeps_ret @keeps_throw keeps_api keeps_log
  keeps_get_session keeps_put_session keeps_enter keeps_post
  keeps_storage_read keeps_storage_write : keeps.

Ltac keeps_step :=
  first
    [ solve [eauto with keeps]
    | apply keeps_bind; [|intros ?]
    | apply keeps_try_catch; [|intros ?]
    | case_match ].

Ltac keeps := repeat keeps_step.

Lemma keeps_notifyAdmins ids : keeps_store (notifyAdmins ids).
Proof. induction ids as [|i ids IH]; simpl; keeps. Qed.
#[local] Hint Resolve keeps_notifyAdmins : keeps.

Lemma keeps_handleError cfg e : keeps_store (handleError cfg e).
Proof. unfold handleError. keeps. Qed.
#[local] Hint Resolve keeps_handleError : keeps.

Lemma keeps_adminMiddleware cfg u next :
  keeps_store next → keeps_store (adminMiddleware cfg u next).
Proof. intros H. unfold adminMiddleware. keeps. Qed.

Lemma keeps_commands cfg u :
  keeps_store (startCommand u) ∧ keeps_store helpCommand ∧
  keeps_store settingsCommand ∧ keeps_store aboutCommand ∧
  keeps_store cancelCommand ∧
  keeps_store (adminMiddleware cfg u (statsCommand u)) ∧
  keeps_store (adminMiddleware cfg u (broadcastCommand u)) ∧
  keeps_store (adminMiddleware cfg u logsCommand) ∧
  keeps_store (adminMiddleware cfg u (debugCommand u)).
Proof.
  split_and!; try apply keeps_adminMiddleware;
    unfold startCommand, helpCommand, settingsCommand, aboutCommand,
      cancelCommand, reset_userState, statsCommand, broadcastCommand,
      logsCommand, debugCommand;
    keeps.
Qed.

Lemma keeps_dispatchCallback action params :
  keeps_store (dispatchCallback action params).
Proof.
  unfold dispatchCallback, handleActionCallback, handleSettingsCallback,
    handleLanguageCallback, handleBroadcastCallback, set_language,
    reset_userState.
  keeps.
Qed.
#[local] Hint Resolve keeps_dispatchCallback : keeps.

Lemma keeps_callbackQueryHandler u : keeps_store (callbackQueryHandler u).
Proof. unfold callbackQueryHandler. keeps. Qed.

Lemma keeps_messages text :
  keeps_store (textHandler text) ∧ keeps_store photoHandler ∧
  keeps_store documentHandler ∧ keeps_store stickerHandler ∧
  keeps_store voiceHandler.
Proof.
  repeat split;
    unfold textHandler, photoHandler, documentHandler, stickerHandler,
      voiceHandler;
    keeps.
Qed.

Lemma keeps_route cfg u : keeps_store (route cfg u).
Proof.
  destruct (keeps_commands cfg u) as (?&?&?&?&?&?&?&?&?).
  unfold route.
  repeat (match goal with
          | |- keeps_store (if ?b then _ else _) => destruct b; [done|]
          end).
  destruct (keeps_messages "") as (_&?&?&?&?).
  destruct (payload u) as [text| | | | |[d|]|];
    first [ done | apply keeps_messages | apply keeps_callbackQueryHandler
          | apply keeps_ret ].
Qed.

Lemma keeps_dispatchStack cfg u : keeps_store (dispatchStack cfg u).
Proof.
  pose proof (keeps_route cfg u).
  unfold dispatchStack, session, conversations, commandValidationMiddleware.
  keeps.
Qed.

(** ** The rate limiter *)

(** The middleware is [admission] on the map, followed by the rest of the stack
    or by the throttling reply. *)
Lemma rateLimitMiddleware_admission cfg u next w :
  rateLimitMiddleware cfg u next w =
    let r := admission cfg (rateLimitKey u) (now u) (rateLimitStore w) in
    if r.1 then next (set_rateLimitStore r.2 w)
    else (await reply tooManyRequests no_other; skip) w.
Proof.
  unfold rateLimitMiddleware, admission, bind, store_get, store_set; simpl.
  destruct (rateLimitStore w !! rateLimitKey u) as [l|]; [|done].
  destruct (now u >? resetTime l); [done|].
  by destruct (count l >=? rateLimit_max cfg).
Qed.

(** For a validated sender the stack is the error boundary around the
    limiter: on the fresh context of the update the validation step finds
    no session to write to. *)
Lemma userValidation_validated cfg u next w :
  validated cfg u →
  userValidationMiddleware cfg u next w =
    match ctx_session w with
    | Some sd =>
        match from u with
        | Some user => next (set_ctx_session (Some (touch user (now u) sd)) w)
        | None => next w
        end
    | None => next w
    end.
Proof.
  intros (user & Hfrom & Hban). unfold userValidationMiddleware.
  rewrite Hfrom. rewrite bool_decide_eq_false_2 by done.
  unfold bind, get_session. by destruct (ctx_session w).
Qed.

Lemma handleUpdate_validated cfg u w :
  validated cfg u →
  handleUpdate cfg u w =
    errorMiddleware cfg (rateLimitMiddleware cfg u (dispatchStack cfg u))
      (set_ctx_session None w).
Proof.
  intros Hv. unfold handleUpdate.
  change (bind (put_session None) ?k w) with (k tt (set_ctx_session None w)).
  cbv beta. unfold errorMiddleware, try_catch.
  by rewrite (userValidation_validated _ _ _ _ Hv).
Qed.

Lemma errorMiddleware_store cfg m w :
  rateLimitStore (errorMiddleware cfg m w).2 = rateLimitStore (m w).2.
Proof.
  unfold errorMiddleware, try_catch.
  destruct (m w) as [[[]|e] w1]; [done|]. apply keeps_handleError.
Qed.

Lemma admission_deny_store cfg k t st :
  (admission cfg k t st).1 = false → (admission cfg k t st).2 = st.
Proof. unfold admission. by repeat case_match. Qed.

(** What one update does to the rate-limit map *)
Lemma handleUpdate_store cfg u w :
  rateLimitStore (handleUpdate cfg u w).2 =
    match from u with
    | Some user =>
        if bool_decide (user_id user ∈ bannedUsers cfg) then rateLimitStore w
        else (admission cfg (rateLimitKey u) (now u) (rateLimitStore w)).2
    | None => rateLimitStore w
    end.
Proof.
  destruct (from u) as [user|] eqn:Hfrom; [case_bool_decide as Hban|].
  - unfold handleUpdate, userValidationMiddleware. rewrite Hfrom.
    rewrite bool_decide_eq_true_2 by done.
    change (bind (put_session None) ?k w) with (k tt (set_ctx_session None w)).
    cbv beta. rewrite errorMiddleware_store.
    assert (keeps_store
              (await log info "Banned user attempted to use bot";
               await reply "🚫 You are banned from using this bot." no_other;
               skip)) as Hk by keeps.
    by rewrite Hk.
  - rewrite handleUpdate_validated by (by exists user).
    rewrite errorMiddleware_store, rateLimitMiddleware_admission.
    cbv zeta.
    change (rateLimitStore (set_ctx_session None w)) with (rateLimitStore w).
    destruct (admission cfg (rateLimitKey u) (now u) (rateLimitStore w))
      as [[|] st] eqn:Hadm; cbn [fst snd].
    + by rewrite keeps_dispatchStack.
    + assert (keeps_store (await reply tooManyRequests no_other; skip)) as Hk
        by keeps.
      rewrite Hk. cbn.
      pose proof (admission_deny_store cfg (rateLimitKey u) (now u) (rateLimitStore w)) as Hd.
      rewrite Hadm in Hd. symmetry. by apply Hd.
  - unfold handleUpdate, userValidationMiddleware. rewrite Hfrom.
    change (bind (put_session None) ?k w) with (k tt (set_ctx_session None w)).
    cbv beta. rewrite errorMiddleware_store.
    assert (keeps_store
              (await log warn "Message received without user information"; skip))
      as Hk by keeps.
    by rewrite Hk.
Qed.

Lemma deliver_store cfg u w :
  rateLimitStore (deliver cfg u w) = rateLimitStore (handleUpdate cfg u w).2.
Proof. unfold deliver. by destruct (handleUpdate cfg u w) as [[[]|e] w1]. Qed.

Lemma toString_truthy n : Js.truthy_string (Js.toString n) = true.
Proof.
  assert (∀ x s, s ≠ "" → pretty_N_go x s ≠ "") as Hgo.
  { intros x. induction (N.lt_wf_0 x) as [x _ IH]; intros s Hs.
    assert (x = 0 ∨ 0 < x)%N as [->|?] by lia.
    - by rewrite pretty_N_go_0.
    - rewrite pretty_N_go_step by done. apply IH; [by apply N.div_lt|done]. }
  assert (∀ x : N, pretty x ≠ "") as HN.
  { intros x. unfold pretty, pretty_N. case_decide; [done|].
    rewrite pretty_N_go_step by lia. by apply Hgo. }
  unfold Js.toString, pretty, pretty_Z.
  destruct n as [|p|p]; [reflexivity| |reflexivity].
  specialize (HN (Npos p)).
  change (pretty p) with (pretty (Npos p)).
  by destruct (pretty (Npos p)).
Qed.

Lemma rateLimitKey_sender u uid :
  user_id <$> from u = Some uid → rateLimitKey u = Js.toString uid.
Proof.
  unfold rateLimitKey. destruct (from u) as [user|]; [|done].
  intros [= <-]. by rewrite toString_truthy.
Qed.






(** C2, as the code has it: with a record for the sender, the limiter
    starts a new window [{count: 1, resetTime: now + W}] and lets the update
    pass when [now > resetTime]; while [now <= resetTime] it either counts
    the request (count below the maximum) and lets it pass, or leaves the
    record alone and answers with the throttling notice. *)
Theorem rate_limit_existing_record cfg u next w l :
  rateLimitStore w !! rateLimitKey u = Some l →
  (now u > resetTime l →
     rateLimitMiddleware cfg u next w =
       next (set_rateLimitStore
               (<[rateLimitKey u :=
                    {| count := 1; resetTime := now u + rateLimit_window cfg |}]>
                  (rateLimitStore w)) w))
  ∧ (now u ≤ resetTime l → count l < rateLimit_max cfg →
     rateLimitMiddleware cfg u next w =
       next (set_rateLimitStore
               (<[rateLimitKey u :=
                    {| count := count l + 1; resetTime := resetTime l |}]>
                  (rateLimitStore w)) w))
  ∧ (now u ≤ resetTime l → rateLimit_max cfg ≤ count l →
     rateLimitMiddleware cfg u next w =
       (await reply tooManyRequests no_other; skip) w).
Proof.
  intros Hl. rewrite rateLimitMiddleware_admission. unfold admission. rewrite Hl.
  destruct (Z.gtb_spec (now u) (resetTime l));
    destruct (Z.geb_spec (count l) (rateLimit_max cfg));
    cbn; repeat split; intros; first [done | lia].
Qed.

Lemma rate_limit_existing_record_witness :
  let u := Sample.msg 7 "/help" 65001 in
  let w := run Sample.cfg [Sample.msg 7 "/help" 5000] boot in
  rateLimitStore w !! rateLimitKey u = Some {| count := 1; resetTime := 65000 |}
  ∧ rateLimitMiddleware Sample.cfg u skip w =
      skip (set_rateLimitStore
              (<[rateLimitKey u := {| count := 1; resetTime := 125001 |}]>
                 (rateLimitStore w)) w).
Proof.
  intros u w.
  assert (rateLimitStore w !! rateLimitKey u
          = Some {| count := 1; resetTime := 65000 |}) as Hl by (by vm_compute).
  split; [exact Hl|].
  apply (rate_limit_existing_record Sample.cfg u skip w _ Hl).
  by vm_compute.
Defined.

(** C2 fails at [now = resetTime]: the record of user 7 ends its window at
    65000; a request at exactly 65000 is counted in the old window instead
    of starting a new one. *)
Lemma rate_limit_boundary_counterexample :
  let u := Sample.msg 7 "/help" 65000 in
  let w := run Sample.cfg [Sample.msg 7 "/help" 5000] boot in
  rateLimitStore w !! rateLimitKey u = Some {| count := 1; resetTime := 65000 |}
  ∧ now u >= 65000
  ∧ rateLimitStore (deliver Sample.cfg u w) !! rateLimitKey u
      = Some {| count := 2; resetTime := 65000 |}
  ∧ rateLimitStore (deliver Sample.cfg u w) !! rateLimitKey u
      ≠ Some {| count := 1; resetTime := now u + rateLimit_window Sample.cfg |}.
Proof. by vm_compute. Qed.

(** ** Twenty-one requests in one window *)

Lemma errorMiddleware_ext cfg m1 m2 w1 w2 :
  m1 w1 = m2 w2 → errorMiddleware cfg m1 w1 = errorMiddleware cfg m2 w2.
Proof. intros H. unfold errorMiddleware, try_catch. by rewrite H. Qed.

Lemma handleUpdate_pass cfg u w st :
  validated cfg u →
  admission cfg (rateLimitKey u) (now u) (rateLimitStore w) = (true, st) →
  handleUpdate cfg u w =
    errorMiddleware cfg (dispatchStack cfg u)
      (set_rateLimitStore st (set_ctx_session None w)).
Proof.
  intros Hv Ha. rewrite handleUpdate_validated by done.
  apply errorMiddleware_ext. rewrite rateLimitMiddleware_admission.
  change (rateLimitStore (set_ctx_session None w)) with (rateLimitStore w).
  by rewrite Ha.
Qed.

Lemma handleUpdate_deny cfg u w st :
  validated cfg u →
  admission cfg (rateLimitKey u) (now u) (rateLimitStore w) = (false, st) →
  handleUpdate cfg u w =
    errorMiddleware cfg (await reply tooManyRequests no_other; skip)
      (set_ctx_session None w).
Proof.
  intros Hv Ha. rewrite handleUpdate_validated by done.
  apply errorMiddleware_ext. rewrite rateLimitMiddleware_admission.
  change (rateLimitStore (set_ctx_session None w)) with (rateLimitStore w).
  by rewrite Ha.
Qed.

Lemma sender_validated cfg u uid :
  user_id <$> from u = Some uid → uid ∉ bannedUsers cfg → validated cfg u.
Proof.
  destruct (from u) as [user|] eqn:Hfrom; [|done].
  intros [= <-] Hban. by exists user.
Qed.

(** Inside a window every request of the sender raises the count by one,
    as long as the maximum is not exceeded. *)
Lemma window_progress cfg uid r (us : list Update) w c :
  uid ∉ bannedUsers cfg →
  Forall (λ u, user_id <$> from u = Some uid ∧ now u ≤ r) us →
  rateLimitStore w !! Js.toString uid = Some {| count := c; resetTime := r |} →
  c + Z.of_nat (length us) ≤ rateLimit_max cfg →
  rateLimitStore (run cfg us w) !! Js.toString uid
    = Some {| count := c + Z.of_nat (length us); resetTime := r |}.
Proof.
  intros Hban Hus. revert w c.
  induction Hus as [|u us [Hu Ht] _ IH]; intros w c Hl Hc.
  { cbn. by rewrite Z.add_0_r. }
  cbn [run foldl]. fold (run cfg us (deliver cfg u w)).
  rewrite length_cons, Nat2Z.inj_succ in *.
  replace (c + Z.succ (Z.of_nat (length us)))
    with ((c + 1) + Z.of_nat (length us)) by lia.
  apply IH; [|lia].
  rewrite deliver_store, handleUpdate_store.
  destruct (from u) as [user|] eqn:Hfrom; [|done].
  injection Hu as Hu. rewrite bool_decide_eq_false_2 by (by rewrite Hu).
  assert (rateLimitKey u = Js.toString uid) as Hk.
  { apply rateLimitKey_sender. by rewrite Hfrom, <-Hu. }
  unfold admission. rewrite Hk, Hl. cbn [resetTime count].
  destruct (Z.gtb_spec (now u) r); [lia|].
  destruct (Z.geb_spec c (rateLimit_max cfg)); [lia|].
  cbn. by rewrite lookup_insert_eq.
Qed.

(** The error boundary only talks. *)
Lemma quiet_ret {A} (a : A) : quiet (ret a).
Proof. by intros w. Qed.

Lemma quiet_bind {A B} (m : Async A) (k : A → Async B) :
  quiet m → (∀ a, quiet (k a)) → quiet (bind m k).
Proof.
  intros Hm Hk w. unfold bind. specialize (Hm w).
  destruct (m w) as [[a|e] w']; simpl in *; [|done].
  destruct (Hk a w') as [-> ->]. done.
Qed.

Lemma quiet_try_catch {A} (m : Async A) (h : JsError → Async A) :
  quiet m → (∀ e, quiet (h e)) → quiet (try_catch m h).
Proof.
  intros Hm Hh w. unfold try_catch. specialize (Hm w).
  destruct (m w) as [[a|e] w']; simpl in *; [done|].
  destruct (Hh e w') as [-> ->]. done.
Qed.

Lemma quiet_api c : quiet (api c).
Proof. intros w. unfold api. by destruct (transport w) as [|[e|] rest]. Qed.

Lemma quiet_log l s : quiet (log l s).
Proof. by intros w. Qed.

Lemma quiet_notifyAdmins ids : quiet (notifyAdmins ids).
Proof.
  induction ids as [|i ids IH]; simpl; [apply quiet_ret|].
  apply quiet_bind; [apply quiet_log|done].
Qed.

Lemma quiet_handleError cfg e : quiet (handleError cfg e).
Proof.
  unfold handleError. apply quiet_bind; [apply quiet_log|intros _].
  destruct (classify (message e)) as [errorType userMessage].
  apply quiet_bind.
  - apply quiet_try_catch; [apply quiet_api|intros; apply quiet_log].
  - intros _. destruct (is_critical errorType);
      [apply quiet_notifyAdmins|apply quiet_ret].
Qed.

(** ** What the error boundary does with an error *)

Lemma notifyAdmins_logs ids w :
  notifyAdmins ids w =
    (Returned tt,
     set_logs (logs w ++ replicate (length ids)
                           {| level := info; line := "Would notify admin" |}) w).
Proof.
  revert w. induction ids as [|i ids IH]; intros w.
  { cbn. rewrite app_nil_r. by destruct w. }
  cbn [notifyAdmins]. unfold bind, log. rewrite IH. cbn.
  by rewrite <-app_assoc.
Qed.

Lemma handleError_returns cfg e w : (handleError cfg e w).1 = Returned tt.
Proof.
  unfold handleError, bind, log, try_catch, reply, api.
  destruct (classify (message e)) as [errorType userMessage]. cbn.
  destruct (transport w) as [|[e'|] t]; cbn;
    destruct (is_critical errorType); by rewrite ?notifyAdmins_logs.
Qed.

Lemma handleError_outbox cfg e w :
  outbox (handleError cfg e w).2 =
    outbox w ++ [{| call := sendMessage (classify (message e)).2 (markup retryKeyboard);
                    delivered := next_call_ok w |}].
Proof.
  unfold handleError, bind, log, try_catch, reply, api, next_call_ok.
  destruct (classify (message e)) as [errorType userMessage]. cbn.
  destruct (transport w) as [|[e'|] t]; cbn;
    destruct (is_critical errorType); by rewrite ?notifyAdmins_logs.
Qed.

Lemma handleError_logs cfg e w :
  logs (handleError cfg e w).2 =
    logs w
    ++ [{| level := error; line := "Bot error occurred" |}]
    ++ (if next_call_ok w then []
        else [{| level := error; line := "Failed to send error message to user" |}])
    ++ (if is_critical (classify (message e)).1
        then replicate (length (adminIds cfg))
               {| level := info; line := "Would notify admin" |}
        else []).
Proof.
  unfold handleError, bind, log, try_catch, reply, api, next_call_ok.
  destruct (classify (message e)) as [errorType userMessage]. cbn.
  destruct (transport w) as [|[e'|] t]; cbn;
    destruct (is_critical errorType); rewrite ?notifyAdmins_logs; cbn;
    by rewrite <-?app_assoc, ?app_nil_r.
Qed.

(** The boundary always returns. *)
Lemma errorMiddleware_returns cfg next w :
  (errorMiddleware cfg next w).1 = Returned tt.
Proof.
  unfold errorMiddleware, try_catch.
  destruct (next w) as [[[]|e] w1]; [done|].
  unfold handleError, bind, log, try_catch, reply, api.
  destruct (classify (message e)) as [errorType userMessage]. cbn.
  destruct (transport w1) as [|[e'|] t]; cbn;
    destruct (is_critical errorType); by rewrite ?notifyAdmins_logs.
Qed.

Lemma handleUpdate_returns cfg u w : (handleUpdate cfg u w).1 = Returned tt.
Proof. unfold handleUpdate, bind, put_session. apply errorMiddleware_returns. Qed.

(** A reply that the transport rejects is handed to the boundary. *)
Lemma errorMiddleware_rejected cfg c e t w :
  transport w = Some e :: t →
  errorMiddleware cfg (await api c; skip) w =
    handleError cfg e
      (set_outbox (outbox w ++ [{| call := c; delivered := false |}]) t w).
Proof.
  intros Ht. unfold errorMiddleware, try_catch, bind, api. by rewrite Ht.
Qed.

(** C3, as the code has it: twenty-one updates of one sender inside one
    window, with a maximum of twenty.  The first opens the window; each of
    the first twenty passes the limiter, which counts it and hands it to
    the rest of the stack under the error boundary; after them the record
    stands at twenty.  The twenty-first does not get past the limiter: all
    the stack does for it is the throttling reply, under the error
    boundary; the stack returns, the stores are as before (the count stays
    at twenty) and no handler is entered.  When the transport accepts the
    throttling reply, it is the only thing sent and nothing is logged.
    When the transport rejects it, the rejection is handled by the error
    boundary: the error is logged, a second reply is attempted, with the
    message for the kind of the error and the retry/support keyboard, and
    the admins are alerted if the kind is a severe one. *)
Theorem rate_exceeded cfg uid (first : Update) (rest : list Update)
    (last : Update) (w : World) :
  rateLimit_max cfg = 20 →
  length rest = 19%nat →
  uid ∉ bannedUsers cfg →
  user_id <$> from first = Some uid →
  Forall (λ u, user_id <$> from u = Some uid
               ∧ now u ≤ now first + rateLimit_window cfg) (rest ++ [last]) →
  opens_window first w →
  let key := Js.toString uid in
  let r := now first + rateLimit_window cfg in
  let w20 := run cfg (first :: rest) w in
  (∀ (k : nat) (u : Update), (first :: rest) !! k = Some u →
     let wk := run cfg (take k (first :: rest)) w in
     handleUpdate cfg u wk =
       errorMiddleware cfg (dispatchStack cfg u)
         (set_rateLimitStore
            (<[key := {| count := Z.of_nat k + 1; resetTime := r |}]>
               (rateLimitStore wk))
            (set_ctx_session None wk)))
  ∧ rateLimitStore w20 !! key = Some {| count := 20; resetTime := r |}
  ∧ (let out := handleUpdate cfg last w20 in
     out = errorMiddleware cfg (await reply tooManyRequests no_other; skip)
             (set_ctx_session None w20)
     ∧ out.1 = Returned tt
     ∧ state_of out.2 = state_of w20
     ∧ (next_call_ok w20 = true →
        calls out.2 = calls w20 ++ [sendMessage tooManyRequests no_other]
        ∧ logs out.2 = logs w20)
     ∧ (∀ e t, transport w20 = Some e :: t →
        let w21 :=
          set_outbox
            (outbox w20 ++ [{| call := sendMessage tooManyRequests no_other;
                               delivered := false |}])
            t (set_ctx_session None w20) in
        out = handleError cfg e w21
        ∧ calls out.2 =
            calls w20 ++ [sendMessage tooManyRequests no_other;
                          sendMessage (classify (message e)).2
                            (markup retryKeyboard)]
        ∧ logs out.2 =
            logs w20
            ++ [{| level := error; line := "Bot error occurred" |}]
            ++ (if next_call_ok w21 then []
                else [{| level := error;
                         line := "Failed to send error message to user" |}])
            ++ (if is_critical (classify (message e)).1
                then replicate (length (adminIds cfg))
                       {| level := info; line := "Would notify admin" |}
                else []))).
Proof.
  intros HM Hlen Hban Hfirst Hall Hopen key r w20.
  apply Forall_app in Hall as [Hrest Hlast].
  apply Forall_singleton in Hlast as [Hlast Htlast].
  assert (rateLimitKey first = key) as Hkey by (by apply rateLimitKey_sender).
  assert (admission cfg key (now first) (rateLimitStore w)
          = (true, <[key := {| count := 1; resetTime := r |}]> (rateLimitStore w)))
    as Hfirst_pass.
  { unfold admission, opens_window in *. rewrite Hkey in Hopen.
    destruct (rateLimitStore w !! key) as [l|]; [|done].
    destruct (Z.gtb_spec (now first) (resetTime l)); [done|lia]. }
  assert (rateLimitStore (deliver cfg first w) !! key
          = Some {| count := 1; resetTime := r |}) as Hone.
  { rewrite deliver_store, handleUpdate_store.
    destruct (from first) as [user|] eqn:Hfrom; [|done].
    injection Hfirst as Hfirst.
    rewrite bool_decide_eq_false_2 by (by rewrite Hfirst).
    rewrite Hkey, Hfirst_pass. cbn. by rewrite lookup_insert_eq. }
  assert (∀ n : nat, (n ≤ 19)%nat →
            rateLimitStore (run cfg (take n rest) (deliver cfg first w)) !! key
            = Some {| count := 1 + Z.of_nat n; resetTime := r |}) as Hprog.
  { intros n Hn.
    pose proof (window_progress cfg uid r (take n rest) (deliver cfg first w) 1
                  Hban) as Hp.
    rewrite length_take, Hlen, Nat.min_l in Hp by done.
    apply Hp; [|done|lia].
    eapply Forall_impl; [by apply Forall_take|]. by intros u [??]. }
  assert (rateLimitStore w20 !! key = Some {| count := 20; resetTime := r |})
    as H20.
  { subst w20. cbn [run foldl]. fold (run cfg rest (deliver cfg first w)).
    specialize (Hprog 19%nat (le_n _)).
    by rewrite take_ge in Hprog by lia. }
  split; [|split; [exact H20|]].
  - intros [|k] u Hu wk.
    + injection Hu as <-. subst wk. cbn [take run foldl].
      apply handleUpdate_pass; [by eapply sender_validated|].
      by rewrite Hkey.
    + cbn in Hu. subst wk. cbn [take run foldl].
      fold (run cfg (take k rest) (deliver cfg first w)).
      assert (k < 19)%nat as Hk by (rewrite <-Hlen; by eapply lookup_lt_Some).
      pose proof (Forall_lookup_1 _ _ _ _ Hrest Hu) as [Hfrom Ht].
      cbv beta in Hfrom, Ht.
      apply handleUpdate_pass; [by eapply sender_validated|].
      rewrite (rateLimitKey_sender _ _ Hfrom). fold key.
      unfold admission. rewrite Hprog by lia. cbn [resetTime count].
      destruct (Z.gtb_spec (now u) r); [lia|].
      destruct (Z.geb_spec (1 + Z.of_nat k) (rateLimit_max cfg)); [lia|].
      do 3 f_equal. lia.
  - cbv zeta.
    rewrite (handleUpdate_deny cfg last w20 (rateLimitStore w20)).
    2: by eapply sender_validated.
    2: { rewrite (rateLimitKey_sender _ _ Hlast). fold key.
         unfold admission. rewrite H20. cbn [resetTime count].
         destruct (Z.gtb_spec (now last) r); [lia|].
         destruct (Z.geb_spec 20 (rateLimit_max cfg)); [done|lia]. }
    split; [done|]. split; [apply errorMiddleware_returns|]. split; [|split].
    + assert (quiet (errorMiddleware cfg
                       (await reply tooManyRequests no_other; skip))) as Hq.
      { apply quiet_try_catch; [|apply quiet_handleError].
        apply quiet_bind; [apply quiet_api|intros; apply quiet_ret]. }
      by destruct (Hq (set_ctx_session None w20)) as [-> _].
    + unfold next_call_ok, errorMiddleware, try_catch, bind, reply, api, calls.
      cbn [transport set_ctx_session].
      destruct (transport w20) as [|[e|] t]; [|done|]; intros _; cbn;
        by rewrite fmap_app.
    + intros e t Ht. unfold reply.
      rewrite (errorMiddleware_rejected cfg (sendMessage tooManyRequests no_other)
                 e t (set_ctx_session None w20) Ht).
      split; [done|]. split.
      * unfold calls. rewrite handleError_outbox. cbn.
        rewrite !fmap_app. cbn. by rewrite <-app_assoc.
      * by rewrite handleError_logs.
Qed.

Lemma rate_exceeded_witness :
  let first := Sample.msg 7 "/help" 5000 in
  let rest := (λ n, Sample.msg 7 "/about" (5001 + n)) <$> seqZ 0 19 in
  let last := Sample.msg 7 "/start" 65000 in
  let w20 := run Sample.cfg (first :: rest) boot in
  rateLimitStore w20 !! "7" = Some {| count := 20; resetTime := 65000 |}
  ∧ state_of (handleUpdate Sample.cfg last w20).2 = state_of w20
  ∧ calls (handleUpdate Sample.cfg last w20).2
      = calls w20 ++ [sendMessage tooManyRequests no_other].
Proof.
  intros first rest last w20.
  assert (rateLimit_max Sample.cfg = 20) as HM by reflexivity.
  assert (length rest = 19%nat) as Hlen by reflexivity.
  assert (7 ∉ bannedUsers Sample.cfg) as Hban
    by (apply (bool_decide_unpack _); vm_compute; reflexivity).
  assert (user_id <$> from first = Some 7) as Hfirst by reflexivity.
  assert (Forall (λ u, user_id <$> from u = Some 7
                       ∧ now u ≤ now first + rateLimit_window Sample.cfg)
            (rest ++ [last])) as Hall
    by (apply (bool_decide_unpack _); vm_compute; reflexivity).
  assert (opens_window first boot) as Hopen by (vm_compute; exact I).
  destruct (rate_exceeded Sample.cfg 7 first rest last boot
              HM Hlen Hban Hfirst Hall Hopen)
    as (_ & H20 & _ & _ & Hstate & Hsent & _).
  split; [exact H20|]. split; [exact Hstate|].
  apply Hsent. reflexivity.
Defined.

(** C3 fails when the transport rejects the throttling reply: user 7 has
    used up the window and the twenty-first call to the Bot API fails, as
    it does for a user who has blocked the bot.  The throttling reply is
    then not all the update yields: the error boundary logs the error,
    attempts a second reply, and alerts the admin. *)
Lemma rate_exceeded_rejected_counterexample :
  let first := Sample.msg 7 "/help" 5000 in
  let rest := (λ n, Sample.msg 7 "/about" (5001 + n)) <$> seqZ 0 19 in
  let last := Sample.msg 7 "/start" 65000 in
  let w := started (replicate 20 None ++ [Some Sample.blocked]) [] in
  let w20 := run Sample.cfg (first :: rest) w in
  let out := handleUpdate Sample.cfg last w20 in
  rateLimitStore w20 !! "7" = Some {| count := 20; resetTime := 65000 |}
  ∧ transport w20 = [Some Sample.blocked]
  ∧ drop 20 (outbox out.2) =
      [{| call := sendMessage tooManyRequests no_other; delivered := false |};
       {| call := sendMessage "❌ An error occurred. Please try again later."
                    (markup retryKeyboard);
          delivered := true |}]
  ∧ logs out.2 =
      logs w20 ++ [{| level := error; line := "Bot error occurred" |};
                   {| level := info; line := "Would notify admin" |}].
Proof. by vm_compute. Qed.

(** ** The error boundary *)



(** ** Updates that stop at the validation step *)

(** C10: an update without sender stops in the validation step, whatever
    the rest of the stack is: the step returns without running it, having
    only logged a warning.  For the whole stack: nothing is sent, the
    rate-limit map and the session storage are unchanged, no handler is
    entered and no session is installed on the context. *)
Theorem no_sender cfg u (next : Async unit) w :
  from u = None →
  userValidationMiddleware cfg u next w =
    (Returned tt,
     set_logs (logs w ++ [{| level := warn;
                             line := "Message received without user information" |}]) w)
  ∧ (let out := handleUpdate cfg u w in
     out.1 = Returned tt
     ∧ outbox out.2 = outbox w
     ∧ state_of out.2 = state_of w
     ∧ ctx_session out.2 = None
     ∧ logs out.2 =
         logs w ++ [{| level := warn;
                       line := "Message received without user information" |}]).
Proof.
  intros Hfrom. unfold handleUpdate, userValidationMiddleware. rewrite Hfrom.
  split; [done|]. by cbn.
Qed.

Lemma no_sender_witness :
  let u := Sample.anonymous "/start" 5000 in
  from u = None
  ∧ userValidationMiddleware Sample.cfg u (throw Sample.blocked) boot =
      (Returned tt,
       set_logs [{| level := warn;
                    line := "Message received without user information" |}] boot)
  ∧ outbox (handleUpdate Sample.cfg u boot).2 = [].
Proof.
  intros u. split; [reflexivity|].
  destruct (no_sender Sample.cfg u (throw Sample.blocked) boot eq_refl)
    as (Hmw & _ & Hout & _).
  split; [exact Hmw|exact Hout].
Defined.

(** C7, as the code has it: an update of a banned sender stops in the
    validation step, whatever the rest of the stack is: all the stack does
    for it is to log the ban and to send the banned notice.  The stack
    returns, the session storage and the rate-limit map are unchanged, no
    session is installed on the context and no handler is entered.  When
    the transport accepts the banned notice, it is the only thing sent and
    the ban the only thing logged: the error boundary has nothing to
    handle.  When the transport rejects the notice, the rejection does
    reach the error boundary: the error is logged, a second reply is
    attempted, with the message for the kind of the error and the
    retry/support keyboard, and the admins are alerted if the kind is a
    severe one. *)
Theorem banned_user cfg u user (next : Async unit) w :
  from u = Some user →
  user_id user ∈ bannedUsers cfg →
  userValidationMiddleware cfg u next w =
    (await log info "Banned user attempted to use bot";
     await reply "🚫 You are banned from using this bot." no_other;
     skip) w
  ∧ (let out := handleUpdate cfg u w in
     out = errorMiddleware cfg
             (await log info "Banned user attempted to use bot";
              await reply "🚫 You are banned from using this bot." no_other;
              skip)
             (set_ctx_session None w)
     ∧ out.1 = Returned tt
     ∧ state_of out.2 = state_of w
     ∧ ctx_session out.2 = None
     ∧ (next_call_ok w = true →
        calls out.2 =
          calls w ++ [sendMessage "🚫 You are banned from using this bot." no_other]
        ∧ logs out.2 =
            logs w ++ [{| level := info; line := "Banned user attempted to use bot" |}])
     ∧ (∀ e t, transport w = Some e :: t →
        let w1 :=
          set_outbox
            (outbox w ++ [{| call := sendMessage
                                       "🚫 You are banned from using this bot."
                                       no_other;
                             delivered := false |}])
            t
            (set_logs
               (logs w ++ [{| level := info;
                              line := "Banned user attempted to use bot" |}])
               (set_ctx_session None w)) in
        out = handleError cfg e w1
        ∧ calls out.2 =
            calls w ++ [sendMessage "🚫 You are banned from using this bot." no_other;
                        sendMessage (classify (message e)).2
                          (markup retryKeyboard)]
        ∧ logs out.2 =
            logs w
            ++ [{| level := info; line := "Banned user attempted to use bot" |};
                {| level := error; line := "Bot error occurred" |}]
            ++ (if next_call_ok w1 then []
                else [{| level := error;
                         line := "Failed to send error message to user" |}])
            ++ (if is_critical (classify (message e)).1
                then replicate (length (adminIds cfg))
                       {| level := info; line := "Would notify admin" |}
                else []))).
Proof.
  intros Hfrom Hban. unfold handleUpdate, userValidationMiddleware.
  rewrite Hfrom, bool_decide_eq_true_2 by done.
  split; [done|].
  change (bind (put_session None) ?k w) with (k tt (set_ctx_session None w)).
  cbv beta zeta.
  assert (quiet (errorMiddleware cfg
                   (await log info "Banned user attempted to use bot";
                    await reply "🚫 You are banned from using this bot." no_other;
                    skip))) as Hq.
  { apply quiet_try_catch; [|apply quiet_handleError].
    apply quiet_bind; [apply quiet_log|intros _].
    apply quiet_bind; [apply quiet_api|intros; apply quiet_ret]. }
  destruct (Hq (set_ctx_session None w)) as [-> ->].
  split; [done|]. split; [apply errorMiddleware_returns|].
  split; [done|]. split; [done|]. split.
  - unfold next_call_ok, errorMiddleware, try_catch, bind, reply, api, log, calls.
    cbn [transport set_ctx_session set_logs].
    destruct (transport w) as [|[e|] t]; [|done|]; intros _; cbn;
      by rewrite fmap_app.
  - intros e t Ht.
    match goal with |- _ = handleError cfg e ?x ∧ _ => set (w1 := x) end.
    assert (errorMiddleware cfg
              (await log info "Banned user attempted to use bot";
               await reply "🚫 You are banned from using this bot." no_other;
               skip)
              (set_ctx_session None w)
            = handleError cfg e w1) as ->.
    { unfold errorMiddleware, try_catch, bind, log, reply, api. cbn.
      by rewrite Ht. }
    split; [done|]. split.
    + unfold calls. rewrite handleError_outbox. subst w1. cbn.
      rewrite !fmap_app. cbn. by rewrite <-app_assoc.
    + rewrite handleError_logs. subst w1. cbn [logs set_outbox set_logs].
      by rewrite <-!app_assoc.
Qed.

Lemma banned_user_witness :
  let u := Sample.msg 13 "/start" 5000 in
  let out := handleUpdate Sample.cfg u boot in
  from u = Some (Sample.user 13)
  ∧ 13 ∈ bannedUsers Sample.cfg
  ∧ state_of out.2 = state_of boot
  ∧ calls out.2 = [sendMessage "🚫 You are banned from using this bot." no_other].
Proof.
  intros u out.
  assert (13 ∈ bannedUsers Sample.cfg) as Hban
    by (apply (bool_decide_unpack _); vm_compute; reflexivity).
  split; [reflexivity|]. split; [exact Hban|].
  destruct (banned_user Sample.cfg u (Sample.user 13) skip boot eq_refl Hban)
    as (_ & _ & _ & Hstate & _ & Hsent & _).
  split; [exact Hstate|].
  apply Hsent. reflexivity.
Defined.

(** C7 fails when the transport rejects the banned notice: banned user 13
    sends [/start] and the call to the Bot API fails, as it does for a
    user who has blocked the bot.  The error boundary is reached: it logs
    the error, attempts a second reply, and alerts the admin. *)
Lemma banned_user_rejected_counterexample :
  let u := Sample.msg 13 "/start" 5000 in
  let out := handleUpdate Sample.cfg u Sample.offline in
  13 ∈ bannedUsers Sample.cfg
  ∧ outbox out.2 =
      [{| call := sendMessage "🚫 You are banned from using this bot." no_other;
          delivered := false |};
       {| call := sendMessage "❌ An error occurred. Please try again later."
                    (markup retryKeyboard);
          delivered := true |}]
  ∧ logs out.2 =
      [{| level := info; line := "Banned user attempted to use bot" |};
       {| level := error; line := "Bot error occurred" |};
       {| level := info; line := "Would notify admin" |}].
Proof.
  intros u out. split; [|by vm_compute].
  apply (bool_decide_unpack _). by vm_compute.
Qed.

(** ** Nothing ever counts a message *)

Section frozen_sessions.

Context (cfg : Config).

Lemma safe_ret {A} (a : A) (Q : A → Prop) : Q a → safe cfg (ret a) Q.
Proof. by intros Ha w Hw. Qed.

Lemma safe_throw {A} e (Q : A → Prop) : safe cfg (throw e) Q.
Proof. by intros w Hw. Qed.

Lemma safe_bind {A B} (m : Async A) (k : A → Async B) Q R :
  safe cfg m Q → (∀ a, Q a → safe cfg (k a) R) → safe cfg (bind m k) R.
Proof.
  intros Hm Hk w Hw. unfold bind. destruct (Hm w Hw) as [Hw' Ha].
  destruct (m w) as [[a|e] w']; simpl in *; [|done].
  by apply Hk.
Qed.

Lemma safe_try_catch {A} (m : Async A) (h : JsError → Async A) Q :
  safe cfg m Q → (∀ e, safe cfg (h e) Q) → safe cfg (try_catch m h) Q.
Proof.
  intros Hm Hh w Hw. unfold try_catch. destruct (Hm w Hw) as [Hw' Ha].
  destruct (m w) as [[a|e] w']; simpl in *; [done|].
  by apply Hh.
Qed.

Lemma safe_weaken {A} (m : Async A) (Q R : A → Prop) :
  safe cfg m Q → (∀ a, Q a → R a) → safe cfg m R.
Proof.
  intros Hm HQR w Hw. destruct (Hm w Hw) as [Hw' Ha]. split; [done|].
  destruct (m w).1; [by apply HQR|done].
Qed.

Lemma safe_api c : safe cfg (api c) (λ _, True).
Proof.
  intros w Hw. unfold api. by destruct (transport w) as [|[e|] rest].
Qed.

Lemma safe_log l s : safe cfg (log l s) (λ _, True).
Proof. by intros w Hw. Qed.

Lemma safe_enter h : safe cfg (enter h) (λ _, True).
Proof. by intros w Hw. Qed.

Lemma safe_post : safe cfg post (λ _, True).
Proof.
  intros w Hw. unfold post. by destruct (backend w) as [|[st d|e] rest].
Qed.

Lemma safe_store_get k : safe cfg (store_get k) (λ _, True).
Proof. by intros w Hw. Qed.

Lemma safe_store_set k v : safe cfg (store_set k v) (λ _, True).
Proof. by intros w Hw. Qed.

Lemma safe_get_session : safe cfg get_session (frozen_opt cfg).
Proof. intros w Hw. split; [done|]. apply Hw. Qed.

Lemma safe_put_session o :
  frozen_opt cfg o → safe cfg (put_session o) (λ _, True).
Proof. intros Ho w [Hst _]. split; [|done]. split; [exact Hst|exact Ho]. Qed.

Lemma safe_storage_read k : safe cfg (storage_read k) (frozen_opt cfg).
Proof.
  intros w Hw. split; [done|]. cbn.
  destruct (sessionStorage w !! k) as [s|] eqn:Hs; [|done].
  by apply Hw in Hs.
Qed.

Lemma safe_storage_write k o :
  frozen_opt cfg o → safe cfg (storage_write k o) (λ _, True).
Proof.
  intros Ho w [Hst Hctx]. split; [|done]. split; [|exact Hctx]. cbn.
  intros k' s'. destruct o as [s|].
  - rewrite lookup_insert. case_decide; [|by apply Hst]. by intros [= <-].
  - rewrite lookup_delete. case_decide; [done|by apply Hst].
Qed.

Lemma frozen_default : frozen cfg (defaultSessionData cfg).
Proof. by repeat split. Qed.

Lemma frozen_set_userState st s : frozen cfg s → frozen cfg (set_userState st s).
Proof. done. Qed.

Lemma frozen_set_languageCode l s : frozen cfg s → frozen cfg (set_languageCode l s).
Proof. done. Qed.

Lemma frozen_set_notificationsEnabled b s :
  frozen cfg s → frozen cfg (set_notificationsEnabled b s).
Proof. done. Qed.

(** The start handler stamps the session only when it has no joining
    time, which a frozen session has unless the load time is 0. *)
Lemma frozen_set_joined t s :
  frozen cfg s → falsy_time (joinedAt s) = true → frozen cfg (set_joined t s).
Proof.
  intros (Hcount & Hlast & Hjoin) Hfalsy. split; [done|]. split; [done|].
  intros Hload. rewrite (Hjoin Hload) in Hfalsy. cbn in Hfalsy.
  unfold Js.truthy_num in Hfalsy.
  by destruct (Z.eqb_spec (loadTime cfg) 0).
Qed.

Ltac safe_step :=
  lazymatch goal with
  | |- safe _ (bind get_session _) _ =>
      eapply safe_bind; [apply safe_get_session|intros ? ?]
  | |- safe _ (bind (storage_read _) _) _ =>
      eapply safe_bind; [apply safe_storage_read|intros ? ?]
  | |- safe _ (bind _ _) _ =>
      apply safe_bind with (Q := λ _, True); [|intros ? _]
  | |- safe _ (try_catch _ _) _ => apply safe_try_catch; [|intros ?]
  | |- safe _ (ret _) _ => by apply safe_ret
  | |- safe _ skip _ => by apply safe_ret
  | |- safe _ (throw _) _ => apply safe_throw
  | |- safe _ (api _) _ => eapply safe_weaken; [apply safe_api|done]
  | |- safe _ (reply _ _) _ => eapply safe_weaken; [apply safe_api|done]
  | |- safe _ (edit _ _) _ => eapply safe_weaken; [apply safe_api|done]
  | |- safe _ (log _ _) _ => eapply safe_weaken; [apply safe_log|done]
  | |- safe _ (logUserAction _) _ => eapply safe_weaken; [apply safe_log|done]
  | |- safe _ (logBotEvent _) _ => eapply safe_weaken; [apply safe_log|done]
  | |- safe _ (enter _) _ => eapply safe_weaken; [apply safe_enter|done]
  | |- safe _ post _ => eapply safe_weaken; [apply safe_post|done]
  | |- safe _ (store_get _) _ => eapply safe_weaken; [apply safe_store_get|done]
  | |- safe _ (store_set _ _) _ => eapply safe_weaken; [apply safe_store_set|done]
  | |- safe _ get_session _ => apply safe_get_session
  | |- safe _ (storage_read _) _ => apply safe_storage_read
  | |- safe _ (put_session _) _ =>
      eapply safe_weaken; [apply safe_put_session|done]
  | |- safe _ (storage_write _ _) _ =>
      eapply safe_weaken; [apply safe_storage_write|done]
  | |- safe _ (match ?x with _ => _ end) _ => destruct x eqn:?
  end.

Ltac safe := repeat safe_step.

Lemma safe_notifyAdmins ids : safe cfg (notifyAdmins ids) (λ _, True).
Proof. induction ids as [|i ids IH]; cbn [notifyAdmins]; safe. exact IH. Qed.

Lemma safe_handleError e : safe cfg (handleError cfg e) (λ _, True).
Proof. unfold handleError. safe. apply safe_notifyAdmins. Qed.

Lemma safe_errorMiddleware next :
  safe cfg next (λ _, True) → safe cfg (errorMiddleware cfg next) (λ _, True).
Proof.
  intros H. unfold errorMiddleware. apply safe_try_catch; [done|].
  apply safe_handleError.
Qed.

Lemma safe_adminMiddleware u next :
  safe cfg next (λ _, True) → safe cfg (adminMiddleware cfg u next) (λ _, True).
Proof. intros H. unfold adminMiddleware. safe. exact H. Qed.

Lemma safe_reset_userState : safe cfg reset_userState (λ _, True).
Proof. unfold reset_userState. safe. by apply frozen_set_userState. Qed.

Lemma safe_startCommand u : safe cfg (startCommand u) (λ _, True).
Proof. unfold startCommand. safe. by apply frozen_set_joined. Qed.

Lemma safe_commands u :
  safe cfg helpCommand (λ _, True) ∧ safe cfg settingsCommand (λ _, True) ∧
  safe cfg aboutCommand (λ _, True) ∧ safe cfg cancelCommand (λ _, True) ∧
  safe cfg (statsCommand u) (λ _, True) ∧
  safe cfg (broadcastCommand u) (λ _, True) ∧
  safe cfg logsCommand (λ _, True) ∧ safe cfg (debugCommand u) (λ _, True).
Proof.
  split_and!;
    unfold helpCommand, settingsCommand, aboutCommand, cancelCommand,
      statsCommand, broadcastCommand, logsCommand, debugCommand;
    safe; apply safe_reset_userState.
Qed.

Lemma safe_dispatchCallback action params :
  safe cfg (dispatchCallback action params) (λ _, True).
Proof.
  unfold dispatchCallback, handleActionCallback, handleSettingsCallback,
    handleLanguageCallback, handleBroadcastCallback, set_language.
  safe; first [ apply safe_reset_userState
              | by apply frozen_set_notificationsEnabled
              | by apply frozen_set_languageCode ].
Qed.

Lemma safe_callbackQueryHandler u : safe cfg (callbackQueryHandler u) (λ _, True).
Proof.
  unfold callbackQueryHandler. safe. apply safe_dispatchCallback.
Qed.

Lemma safe_messages text :
  safe cfg (textHandler text) (λ _, True) ∧ safe cfg photoHandler (λ _, True) ∧
  safe cfg documentHandler (λ _, True) ∧ safe cfg stickerHandler (λ _, True) ∧
  safe cfg voiceHandler (λ _, True).
Proof.
  split_and!;
    unfold textHandler, photoHandler, documentHandler, stickerHandler,
      voiceHandler;
    safe.
Qed.

Lemma safe_route u : safe cfg (route cfg u) (λ _, True).
Proof.
  destruct (safe_commands u) as (?&?&?&?&?&?&?&?).
  pose proof (safe_startCommand u).
  unfold route.
  repeat (match goal with
          | |- safe _ (if ?b then _ else _) _ =>
              destruct b; [first [done | by apply safe_adminMiddleware]|]
          end).
  destruct (safe_messages "") as (_&?&?&?&?).
  destruct (payload u) as [text| | | | |[d|]|];
    first [ done | apply safe_messages | apply safe_callbackQueryHandler
          | by apply safe_ret ].
Qed.

Lemma safe_dispatchStack u : safe cfg (dispatchStack cfg u) (λ _, True).
Proof.
  pose proof (safe_route u) as Hroute.
  unfold dispatchStack, session, conversations, commandValidationMiddleware.
  safe; try exact Hroute.
  all: try match goal with
           | H : frozen_opt _ ?o |- frozen_opt _ (Some (default _ ?o)) =>
               destruct o; [exact H|apply frozen_default]
           end.
  assumption.
Qed.

End frozen_sessions.

Lemma quiet_frozen cfg {A} (m : Async A) w :
  quiet m → sessions_frozen cfg w → sessions_frozen cfg (m w).2.
Proof.
  intros Hq [Hst Hctx]. destruct (Hq w) as [Hstate Hsess].
  injection Hstate as _ Hstorage _.
  split; [by rewrite Hstorage|by rewrite Hsess].
Qed.

Lemma safe_rateLimitMiddleware cfg u next :
  safe cfg next (λ _, True) →
  safe cfg (rateLimitMiddleware cfg u next) (λ _, True).
Proof.
  intros Hnext w Hw. rewrite rateLimitMiddleware_admission. cbv zeta.
  destruct (admission cfg (rateLimitKey u) (now u) (rateLimitStore w)).1.
  - by apply Hnext.
  - apply (safe_bind cfg _ _ (λ _, True) (λ _, True)); [|by intros; apply safe_ret|done].
    eapply safe_weaken; [apply safe_api|done].
Qed.

(** Whatever the update, the sessions stay frozen. *)
Lemma handleUpdate_frozen cfg u w :
  sessions_frozen cfg w → sessions_frozen cfg (handleUpdate cfg u w).2.
Proof.
  intros [Hst Hctx].
  assert (sessions_frozen cfg (set_ctx_session None w)) as Hw0 by done.
  destruct (from u) as [user|] eqn:Hfrom;
    [destruct (decide (user_id user ∈ bannedUsers cfg)) as [Hban|Hban]|].
  - unfold handleUpdate, userValidationMiddleware.
    rewrite Hfrom, bool_decide_eq_true_2 by done.
    change (bind (put_session None) ?k w) with (k tt (set_ctx_session None w)).
    cbv beta. apply quiet_frozen; [|done].
    apply quiet_try_catch; [|apply quiet_handleError].
    apply quiet_bind; [apply quiet_log|intros _].
    apply quiet_bind; [apply quiet_api|intros; apply quiet_ret].
  - rewrite handleUpdate_validated by (by exists user).
    apply safe_errorMiddleware; [|done].
    apply safe_rateLimitMiddleware, safe_dispatchStack.
  - unfold handleUpdate, userValidationMiddleware. rewrite Hfrom.
    change (bind (put_session None) ?k w) with (k tt (set_ctx_session None w)).
    cbv beta. apply quiet_frozen; [|done].
    apply quiet_try_catch; [|apply quiet_handleError].
    apply quiet_bind; [apply quiet_log|intros; apply quiet_ret].
Qed.

Lemma deliver_frozen cfg u w :
  sessions_frozen cfg w → sessions_frozen cfg (deliver cfg u w).
Proof.
  intros Hw. pose proof (handleUpdate_frozen cfg u w Hw) as H.
  unfold deliver. by destruct (handleUpdate cfg u w) as [[[]|e] w1].
Qed.

(** No update ever counts a message or moves a timestamp: every session
    the bot stores keeps the counters it was created with. *)
Lemma sessions_stay_frozen cfg (us : list Update) (k : string) (s : SessionData) :
  sessionStorage (run cfg us boot) !! k = Some s → frozen cfg s.
Proof.
  assert (∀ w, sessions_frozen cfg w → sessions_frozen cfg (run cfg us w)) as Hrun.
  { induction us as [|u us IH]; intros w Hw; [done|].
    apply IH. by apply deliver_frozen. }
  assert (sessions_frozen cfg boot) as Hboot.
  { split; [|done]. intros k' s'. cbn. by rewrite lookup_empty. }
  apply (Hrun boot Hboot).
Qed.

(** ** The session touch of the validation step *)

(** The validation step runs before the session plugin has installed
    [ctx.session]; on a validated update it therefore goes straight on to
    the limiter and leaves the session to the plugin and the handlers. *)
Lemma userValidation_skips_touch cfg u next w :
  validated cfg u →
  ctx_session w = None →
  userValidationMiddleware cfg u next w = next w.
Proof.
  intros Hv Hs. rewrite userValidation_validated by done. by rewrite Hs.
Qed.

(** C1 on the code: user 42 sends [/help] at 5000 and again at 6000 to a
    bot whose configuration was loaded at 1000.  Both updates are validated
    and reach the help handler, yet the stored session still counts zero
    messages and its last activity is still the load time
    ([sessions_stay_frozen] shows this for every run). *)
Theorem validation_touch_missing :
  let us := [Sample.msg 42 "/help" 5000; Sample.msg 42 "/help" 6000] in
  let w := run Sample.cfg us boot in
  Forall (validated Sample.cfg) us
  ∧ entered w = [h_help; h_help]
  ∧ (sessionStorage w !! "42") ≫= messageCount = Some 0
  ∧ (sessionStorage w !! "42") ≫= lastActivity = Some 1000.
Proof.
  intros us w. split.
  - repeat constructor; eexists; (split; [reflexivity|]);
      apply (bool_decide_unpack _); vm_compute; reflexivity.
  - by vm_compute.
Qed.

(** ** First contact *)

(** C4 on the code: user 42 sends [/start] at 5000 to a bot whose
    configuration was loaded at 1000, and again at 9000.  The start handler
    runs and asks for the inviter; the session it leaves behind has joined
    at the load time, not at the time of the contact; the second contact
    keeps that value. *)
Theorem first_contact_joinedAt :
  let first := Sample.msg 42 "/start" 5000 in
  let w1 := run Sample.cfg [first] boot in
  let w2 := run Sample.cfg [first; Sample.msg 42 "/start" 9000] boot in
  sessionStorage boot !! "42" = None
  ∧ entered w1 = [h_start]
  ∧ calls w1 = [sendMessage "Please enter your inviter ID" html]
  ∧ (sessionStorage w1 !! "42") ≫= joinedAt = Some 1000
  ∧ (sessionStorage w1 !! "42") ≫= joinedAt ≠ Some (now first)
  ∧ (sessionStorage w2 !! "42") ≫= joinedAt = Some 1000.
Proof. by vm_compute. Qed.

(** A session created by the plugin has joined at the load time, so the
    initialisation in the start handler finds nothing to do unless the
    load time is 0. *)
Lemma default_joinedAt cfg :
  joinedAt (defaultSessionData cfg) = Some (loadTime cfg)
  ∧ (loadTime cfg ≠ 0 → falsy_time (joinedAt (defaultSessionData cfg)) = false).
Proof.
  split; [done|]. intros H. cbn. unfold Js.truthy_num.
  by destruct (Z.eqb_spec (loadTime cfg) 0).
Qed.

(** ** The admin gate *)

(** The gate itself: reached by a sender who is not an admin, it answers
    with the permission notice and does not run the handler behind it. *)
Lemma adminMiddleware_denies cfg u (next : Async unit) w :
  (∀ user, from u = Some user → user_id user ∉ adminIds cfg) →
  adminMiddleware cfg u next w =
    (await reply "❌ You don't have permission to use this command." no_other;
     await log warn "Non-admin attempted to use admin command";
     skip) w.
Proof.
  intros Hna. unfold adminMiddleware.
  destruct (from u) as [user|]; [|done]. cbn.
  rewrite (bool_decide_eq_false_2 _ (Hna user eq_refl)).
  by rewrite andb_false_r.
Qed.

Lemma first_word_slash text name :
  (Js.split " " text).1 = "/" +:+ name → Js.startsWith "/" text = true.
Proof.
  destruct text as [|a t]; [done|]. cbn.
  destruct (Js.split " " t) as [hd tl].
  destruct (decide (a = " "%char)); [done|].
  cbn. intros [= -> _]. by rewrite decide_True.
Qed.

(** The command validation stops the three admin commands, and the debug
    command, for every sender: they are not in its list. *)
Lemma commandValidation_blocks_admin u (next : Async unit) w :
  is_command "stats" u || is_command "broadcast" u
    || is_command "logs" u || is_command "debug" u = true →
  commandValidationMiddleware u next w =
    (await log info "Invalid command received";
     await reply "❓ Unknown command. Use /help to see available commands."
             (markup helpButton);
     skip) w.
Proof.
  unfold is_command, commandValidationMiddleware.
  destruct (message_text u) as [text|]; [|done].
  intros Hcmd.
  assert (∃ name, (Js.split " " text).1 = "/" +:+ name
                  ∧ name ∈ ["stats"; "broadcast"; "logs"; "debug"])
    as (name & Hsplit & Hname).
  { repeat (apply orb_prop in Hcmd as [Hcmd|Hcmd]);
      apply bool_decide_eq_true_1 in Hcmd; eexists; (split; [exact Hcmd|]);
      apply (bool_decide_unpack _); by vm_compute. }
  rewrite (first_word_slash _ _ Hsplit), Hsplit. cbn [Js.slice String.append].
  rewrite bool_decide_eq_false_2; [done|].
  intros Hvalid.
  repeat (apply elem_of_cons in Hname as [->|Hname];
          [apply (bool_decide_pack _) in Hvalid; by vm_compute in Hvalid|]).
  by apply elem_of_nil in Hname.
Qed.

(** C5 on the code: user 42, who is not an admin, sends [/stats],
    [/broadcast hello] and [/logs].  No handler is entered, but the reply
    is the unknown-command notice of the command validation, which does not
    list the admin commands; the gate is never reached.  The admin (user 1)
    gets the same reply. *)
Theorem admin_command_unknown :
  let unknown :=
    sendMessage "❓ Unknown command. Use /help to see available commands."
      (markup helpButton) in
  let denied :=
    sendMessage "❌ You don't have permission to use this command." no_other in
  let w := run Sample.cfg [Sample.msg 42 "/stats" 5000;
                           Sample.msg 42 "/broadcast hello" 5001;
                           Sample.msg 42 "/logs" 5002] boot in
  let w' := run Sample.cfg [Sample.msg 1 "/stats" 5000] boot in
  (42 ∉ adminIds Sample.cfg)
  ∧ entered w = []
  ∧ calls w = [unknown; unknown; unknown]
  ∧ (denied ∉ calls w)
  ∧ (1 ∈ adminIds Sample.cfg)
  ∧ entered w' = []
  ∧ calls w' = [unknown].
Proof.
  intros unknown denied w w'.
  assert (calls w = [unknown; unknown; unknown]) as Hw by (by vm_compute).
  split; [apply (bool_decide_unpack _); by vm_compute|].
  split; [by vm_compute|]. split; [exact Hw|].
  split.
  { rewrite Hw. intros Hin.
    repeat (apply elem_of_cons in Hin as [Hin|Hin]; [discriminate Hin|]).
    by apply elem_of_nil in Hin. }
  split; [apply (bool_decide_unpack _); by vm_compute|].
  split; by vm_compute.
Qed.

(** ** Button presses with an unknown payload *)

Lemma api_ok c w :
  transport_ok w →
  api c w =
    (Returned tt,
     set_outbox (outbox w ++ [{| call := c; delivered := true |}])
       (tail (transport w)) w).
Proof.
  unfold transport_ok, api. intros Hok.
  destruct (transport w) as [|[e|] t]; [done| |done].
  by apply Forall_cons in Hok as [[=] _].
Qed.

Lemma bind_enter {B} h (k : unit → Async B) w :
  bind (enter h) k w = k tt (set_entered (entered w ++ [h]) w).
Proof. done. Qed.

Lemma bind_log {B} l s (k : unit → Async B) w :
  bind (log l s) k w = k tt (set_logs (logs w ++ [{| level := l; line := s |}]) w).
Proof. done. Qed.

Lemma bind_api_ok {B} c (k : unit → Async B) w :
  transport_ok w →
  bind (api c) k w =
    k tt (set_outbox (outbox w ++ [{| call := c; delivered := true |}])
            (tail (transport w)) w).
Proof. intros Hok. unfold bind. by rewrite api_ok. Qed.

Lemma transport_ok_tail w o :
  transport_ok w → transport_ok (set_outbox o (tail (transport w)) w).
Proof.
  unfold transport_ok. cbn. intros Hok.
  destruct (transport w) as [|x t]; [done|]. by apply Forall_cons in Hok as [_ ?].
Qed.

(** C6, as the code has it.  For a payload that is not empty, with the
    transport accepting the calls, the handler returns normally after
    answering the callback query, and
    - an unknown first segment gives the unknown-action text with the main
      menu;
    - [action] with an unknown (or missing) verb gives the unknown-action
      text with the main menu;
    - [settings] with an unknown verb gives the unknown-setting text with
      the settings keyboard;
    - [lang] with a verb that names no member of the language table gives
      the unknown-language text with the language keyboard;
    - [broadcast] with a verb other than [confirm] edits nothing. *)
Theorem unknown_callback u data action params w :
  callbackData u = Some data →
  data ≠ "" →
  Js.split ":" data = (action, params) →
  transport_ok w →
  let out := callbackQueryHandler u w in
  let verb := head params in
  let edited (text : string) (kb : Keyboard) :=
    out.1 = Returned tt
    ∧ calls out.2 = calls w ++ [answerCallbackQuery; editMessageText text (markup kb)]
    ∧ ctx_session out.2 = ctx_session w in
  (action ∉ ["action"; "settings"; "lang"; "broadcast"] →
     edited "❓ Unknown action. Please try again." keyboards.mainMenu)
  ∧ (action = "action" →
     verb ∉ Some <$> ["main"; "help"; "about"; "settings"; "back"; "cancel";
                      "retry"; "support"] →
     edited "❓ Unknown action." keyboards.mainMenu)
  ∧ (action = "settings" →
     verb ∉ Some <$> ["language"; "notifications"] →
     edited "❓ Unknown setting." keyboards.settings)
  ∧ (action = "lang" →
     languages_get verb = None →
     edited "❓ Unknown language." keyboards.language)
  ∧ (action = "broadcast" →
     verb ≠ Some "confirm" →
     out.1 = Returned tt
     ∧ calls out.2 = calls w ++ [answerCallbackQuery]
     ∧ ctx_session out.2 = ctx_session w).
Proof.
  intros Hdata Hne Hsplit Hok out verb edited.
  assert (Js.truthy_string data = true) as Htruthy by (by destruct data).
  set (w0 := set_logs (logs w ++ [{| level := info;
                                     line := "User Action: callback_query" |}])
               (set_entered (entered w ++ [h_callback]) w)).
  assert (transport_ok w0) as Hok0 by exact Hok.
  set (w1 := set_outbox (outbox w0 ++ [{| call := answerCallbackQuery;
                                          delivered := true |}])
               (tail (transport w0)) w0).
  assert (transport_ok w1) as Hok1 by (by apply transport_ok_tail).
  assert (calls w1 = calls w ++ [answerCallbackQuery]) as Hcalls1.
  { unfold calls. cbn. by rewrite fmap_app. }
  assert (out = try_catch (dispatchCallback action params)
                  (λ err,
                    await log console_error "Error handling callback:";
                    edit "❌ An error occurred. Please try again."
                      (markup keyboards.mainMenu)) w1) as Hout.
  { subst out. unfold callbackQueryHandler. rewrite Hdata, Htruthy. cbn [negb].
    rewrite bind_enter. unfold logUserAction. rewrite bind_log.
    rewrite bind_api_ok by exact Hok. by rewrite Hsplit. }
  assert (∀ text kb,
            dispatchCallback action params w1 = edit text (markup kb) w1 →
            edited text kb) as Hedit.
  { intros text kb Hd. subst edited. cbv beta. rewrite Hout.
    unfold try_catch. rewrite Hd. unfold edit. rewrite api_ok by done.
    cbn [fst snd]. split; [done|]. unfold calls in *. cbn.
    by rewrite !fmap_app, <-app_assoc. }
  assert (action = "broadcast" → verb ≠ Some "confirm" →
          out = (Returned tt, w1)) as Hbroadcast.
  { intros -> Hverb. rewrite Hout.
    unfold try_catch, dispatchCallback, handleBroadcastCallback.
    rewrite !bool_decide_eq_false_2 by done.
    rewrite bool_decide_eq_true_2 by done. fold verb.
    by rewrite bool_decide_eq_false_2 by done. }
  split; [|split; [|split; [|split]]].
  - intros Hns. apply Hedit. unfold dispatchCallback.
    rewrite !bool_decide_eq_false_2; [done|..];
      intros ->; apply Hns; repeat constructor.
  - intros -> Hverb. apply Hedit. unfold dispatchCallback, handleActionCallback.
    rewrite bool_decide_eq_true_2 by done. fold verb.
    rewrite !bool_decide_eq_false_2; [done|..];
      intros Hv; apply Hverb; rewrite Hv; cbn; repeat constructor.
  - intros -> Hverb. apply Hedit. unfold dispatchCallback, handleSettingsCallback.
    rewrite bool_decide_eq_false_2 by done.
    rewrite bool_decide_eq_true_2 by done. fold verb.
    rewrite !bool_decide_eq_false_2; [done|..];
      intros Hv; apply Hverb; rewrite Hv; cbn; repeat constructor.
  - intros -> Hverb. apply Hedit. unfold dispatchCallback, handleLanguageCallback.
    rewrite !bool_decide_eq_false_2 by done.
    rewrite bool_decide_eq_true_2 by done. fold verb. by rewrite Hverb.
  - intros Hb Hverb. by rewrite (Hbroadcast Hb Hverb).
Qed.

Lemma unknown_callback_witness :
  let u := Sample.press 42 "bogus:verb" 5000 in
  let out := callbackQueryHandler u boot in
  callbackData u = Some "bogus:verb"
  ∧ Js.split ":" "bogus:verb" = ("bogus", ["verb"])
  ∧ transport_ok boot
  ∧ out.1 = Returned tt
  ∧ calls out.2 =
      [answerCallbackQuery;
       editMessageText "❓ Unknown action. Please try again."
         (markup keyboards.mainMenu)].
Proof.
  intros u out.
  assert (transport_ok boot) as Hok by constructor.
  assert ("bogus:verb" ≠ "") as Hne by discriminate.
  assert ("bogus" ∉ ["action"; "settings"; "lang"; "broadcast"]) as Hns
    by (apply (bool_decide_unpack _); vm_compute; reflexivity).
  split; [reflexivity|]. split; [reflexivity|]. split; [exact Hok|].
  destruct (unknown_callback u "bogus:verb" "bogus" ["verb"] boot
              eq_refl Hne eq_refl Hok) as (Hunknown & _).
  destruct (Hunknown Hns) as (Hret & Hcalls & _).
  split; [exact Hret|exact Hcalls].
Defined.

(** C6 fails for an unknown verb of a known namespace other than [action]:
    [settings:bogus] is answered with the unknown-setting text and the
    settings keyboard, [lang:xx] with the unknown-language text and the
    language keyboard, and [broadcast:bogus] with no text at all.  None of
    them shows the unknown-action text or the main menu. *)
Lemma unknown_verb_counterexample :
  let sent (data : string) :=
    calls (run Sample.cfg [Sample.press 42 data 5000] boot) in
  sent "settings:bogus" =
    [answerCallbackQuery;
     editMessageText "❓ Unknown setting." (markup keyboards.settings)]
  ∧ sent "lang:xx" =
      [answerCallbackQuery;
       editMessageText "❓ Unknown language." (markup keyboards.language)]
  ∧ sent "broadcast:bogus" = [answerCallbackQuery]
  ∧ keyboards.settings ≠ keyboards.mainMenu
  ∧ keyboards.language ≠ keyboards.mainMenu.
Proof. by vm_compute. Qed.

(** * Further properties of the sources *)

(** ** The rate limiter across senders and across windows *)

Lemma toString_inj (a b : Z) : Js.toString a = Js.toString b → a = b.
Proof. unfold Js.toString. apply (inj pretty). Qed.

Lemma admission_other cfg k t store (k' : string) :
  k' ≠ k → (admission cfg k t store).2 !! k' = store !! k'.
Proof.
  intros Hne. unfold admission.
  repeat case_match; cbn; by rewrite ?lookup_insert_ne.
Qed.

(** X1: the limiter keeps one record per sender and an update touches only
    the record of its own sender: whatever updates other senders (or
    nobody) send, the record of a given user id stays as it is. *)
Theorem limiter_isolation cfg (us : list Update) (w : World) (other : Z) :
  Forall (λ u, user_id <$> from u ≠ Some other) us →
  rateLimitStore (run cfg us w) !! Js.toString other
    = rateLimitStore w !! Js.toString other.
Proof.
  intros Hus. revert w.
  induction Hus as [|u us Hu _ IH]; intros w; [done|].
  cbn [run foldl]. fold (run cfg us (deliver cfg u w)). rewrite IH.
  rewrite deliver_store, handleUpdate_store.
  destruct (from u) as [user|] eqn:Hfrom; [|done].
  case_bool_decide; [done|].
  apply admission_other.
  rewrite (rateLimitKey_sender u (user_id user)) by (by rewrite Hfrom).
  intros Heq. apply toString_inj in Heq. apply Hu. by rewrite Heq.
Qed.

Lemma limiter_isolation_witness :
  let us := [Sample.msg 7 "/help" 5000; Sample.anonymous "hello" 5001;
             Sample.msg 8 "/help" 5002; Sample.msg 7 "/about" 5003] in
  rateLimitStore (run Sample.cfg us boot) !! "9" = None
  ∧ rateLimitStore (run Sample.cfg us boot) !! "7"
      = Some {| count := 2; resetTime := 65000 |}.
Proof.
  intros us. split; [|by vm_compute].
  apply (limiter_isolation Sample.cfg us boot 9).
  apply (bool_decide_unpack _). vm_compute. reflexivity.
Defined.

Lemma deliver_world cfg u w : deliver cfg u w = (handleUpdate cfg u w).2.
Proof.
  unfold deliver. pose proof (handleUpdate_returns cfg u w) as H.
  destruct (handleUpdate cfg u w) as [[[]|e] w1]; [done|discriminate H].
Qed.

(** A request of a sender whose record is full, inside the window, changes
    neither the stores nor the handler trace. *)
Lemma deliver_throttled cfg u uid w c r :
  uid ∉ bannedUsers cfg →
  user_id <$> from u = Some uid →
  rateLimitStore w !! Js.toString uid = Some {| count := c; resetTime := r |} →
  rateLimit_max cfg ≤ c →
  now u ≤ r →
  state_of (deliver cfg u w) = state_of w.
Proof.
  intros Hban Hfrom Hl Hc Ht. rewrite deliver_world.
  rewrite (handleUpdate_deny cfg u w (rateLimitStore w)).
  - assert (quiet (errorMiddleware cfg
                     (await reply tooManyRequests no_other; skip))) as Hq.
    { apply quiet_try_catch; [|apply quiet_handleError].
      apply quiet_bind; [apply quiet_api|intros; apply quiet_ret]. }
    by destruct (Hq (set_ctx_session None w)) as [-> _].
  - by eapply sender_validated.
  - rewrite (rateLimitKey_sender _ _ Hfrom). unfold admission. rewrite Hl.
    cbn [resetTime count].
    destruct (Z.gtb_spec (now u) r); [lia|].
    destruct (Z.geb_spec c (rateLimit_max cfg)); [done|lia].
Qed.

(** X2: a throttled sender is not punished for insisting.  However many
    requests are refused while the window lasts, they change neither the
    record nor anything else in the stores and enter no handler; the first
    request after the reset time opens a new window with count 1. *)
Theorem throttle_recovery cfg uid (refused : list Update) (u : Update)
    (w : World) (c r : Z) :
  uid ∉ bannedUsers cfg →
  rateLimitStore w !! Js.toString uid = Some {| count := c; resetTime := r |} →
  rateLimit_max cfg ≤ c →
  Forall (λ v, user_id <$> from v = Some uid ∧ now v ≤ r) refused →
  user_id <$> from u = Some uid →
  now u > r →
  state_of (run cfg refused w) = state_of w
  ∧ rateLimitStore (deliver cfg u (run cfg refused w)) !! Js.toString uid
      = Some {| count := 1; resetTime := now u + rateLimit_window cfg |}.
Proof.
  intros Hban Hl Hc Hrefused Hfrom Ht.
  assert (state_of (run cfg refused w) = state_of w) as Hstate.
  { clear Hfrom Ht. revert w Hl.
    induction Hrefused as [|v vs [Hv Htv] _ IH]; intros w Hl; [done|].
    cbn [run foldl]. fold (run cfg vs (deliver cfg v w)).
    pose proof (deliver_throttled cfg v uid w c r Hban Hv Hl Hc Htv) as Hd.
    rewrite IH; [done|].
    injection Hd as Hstore _ _. by rewrite Hstore. }
  split; [done|].
  injection Hstate as Hstore _ _.
  rewrite deliver_store, handleUpdate_store.
  destruct (from u) as [user|] eqn:Hu; [|done].
  injection Hfrom as Hfrom. rewrite bool_decide_eq_false_2 by (by rewrite Hfrom).
  rewrite (rateLimitKey_sender u uid) by (by rewrite Hu, <-Hfrom).
  unfold admission. rewrite Hstore, Hl. cbn [resetTime].
  destruct (Z.gtb_spec (now u) r); [|lia].
  cbn. by rewrite lookup_insert_eq.
Qed.

Lemma throttle_recovery_witness :
  let w := run Sample.cfg
             ((λ n, Sample.msg 7 "/help" (5000 + n)) <$> seqZ 0 20) boot in
  let refused := [Sample.msg 7 "/help" 6000; Sample.msg 7 "/start" 65000] in
  let u := Sample.msg 7 "/help" 65001 in
  rateLimitStore w !! "7" = Some {| count := 20; resetTime := 65000 |}
  ∧ state_of (run Sample.cfg refused w) = state_of w
  ∧ rateLimitStore (deliver Sample.cfg u (run Sample.cfg refused w)) !! "7"
      = Some {| count := 1; resetTime := 125001 |}.
Proof.
  intros w refused u.
  assert (rateLimitStore w !! Js.toString 7
          = Some {| count := 20; resetTime := 65000 |}) as Hl by (by vm_compute).
  assert (7 ∉ bannedUsers Sample.cfg) as Hban
    by (apply (bool_decide_unpack _); vm_compute; reflexivity).
  assert (Forall (λ v, user_id <$> from v = Some 7 ∧ now v ≤ 65000) refused)
    as Hrefused by (apply (bool_decide_unpack _); vm_compute; reflexivity).
  split; [exact Hl|].
  apply (throttle_recovery Sample.cfg 7 refused u w 20 65000 Hban Hl);
    [by vm_compute|exact Hrefused|reflexivity|reflexivity].
Defined.

(** ** Who is alerted about an error *)

Lemma critical_iff msg :
  is_critical (classify msg).1
  = negb (Js.includes "rate limit" msg || Js.includes "banned" msg
          || Js.includes "network" msg).
Proof. unfold classify. by repeat case_match. Qed.

Lemma filter_alerts_replicate n :
  length (filter (λ l, line l = "Would notify admin")
            (replicate n {| level := info; line := "Would notify admin" |})) = n.
Proof.
  induction n as [|n IH]; [done|]. cbn [replicate].
  rewrite filter_cons_True by done. cbn. by rewrite IH.
Qed.

(** X3: the operators are alerted, once per configured admin id, exactly
    when the message of the error mentions none of "rate limit", "banned"
    and "network"; a configuration error whose message also mentions one of
    the three raises no alert. *)
Theorem alert_policy cfg (e : JsError) (w : World) :
  alerts (handleError cfg e w).2 =
    (alerts w +
     if Js.includes "rate limit" (message e) || Js.includes "banned" (message e)
        || Js.includes "network" (message e)
     then 0 else length (adminIds cfg))%nat.
Proof.
  unfold alerts. rewrite handleError_logs, critical_iff.
  rewrite !filter_app, !length_app. rewrite filter_cons_False by done.
  rewrite filter_nil. cbn [length].
  destruct (next_call_ok w);
    [rewrite filter_nil|rewrite filter_cons_False, filter_nil by done];
    cbn [length];
    destruct (Js.includes "rate limit" (message e) || Js.includes "banned" (message e)
              || Js.includes "network" (message e));
    cbn [negb]; rewrite ?filter_alerts_replicate, ?filter_nil; cbn [length]; lia.
Qed.

(** ** The discipline every run keeps *)

Lemma orderly_ret {A} (a : A) (Q : A → Prop) : Q a → orderly (ret a) Q.
Proof. by intros Ha w Hw. Qed.

Lemma orderly_throw {A} e (Q : A → Prop) : orderly (throw e) Q.
Proof. by intros w Hw. Qed.

Lemma orderly_bind {A B} (m : Async A) (k : A → Async B) Q R :
  orderly m Q → (∀ a, Q a → orderly (k a) R) → orderly (bind m k) R.
Proof.
  intros Hm Hk w Hw. unfold bind. destruct (Hm w Hw) as [Hw' Ha].
  destruct (m w) as [[a|e] w']; simpl in *; [|done].
  by apply Hk.
Qed.

Lemma orderly_try_catch {A} (m : Async A) (h : JsError → Async A) Q :
  orderly m Q → (∀ e, orderly (h e) Q) → orderly (try_catch m h) Q.
Proof.
  intros Hm Hh w Hw. unfold try_catch. destruct (Hm w Hw) as [Hw' Ha].
  destruct (m w) as [[a|e] w']; simpl in *; [done|].
  by apply Hh.
Qed.

Lemma orderly_ext {A} (m1 m2 : Async A) Q :
  (∀ w, m1 w = m2 w) → orderly m2 Q → orderly m1 Q.
Proof. intros Heq Hm w Hw. rewrite Heq. by apply Hm. Qed.

Lemma orderly_api c :
  parse_mode_of c = None ∨ parse_mode_of c = Some "HTML" →
  orderly (api c) (λ _, True).
Proof.
  intros Hc w (Hst & Hctx & Hent & Hcalls). unfold api.
  destruct (transport w) as [|[e|] rest]; (split; [|done]);
    (split_and!; [done|done|done|]);
    unfold calls in *; cbn; rewrite fmap_app; apply Forall_app;
    (split; [exact Hcalls|by apply Forall_singleton]).
Qed.

Lemma orderly_log l s : orderly (log l s) (λ _, True).
Proof. by intros w Hw. Qed.

Lemma orderly_enter h : public_handler h = true → orderly (enter h) (λ _, True).
Proof.
  intros Hh w (Hst & Hctx & Hent & Hcalls). split; [|done].
  split_and!; [done|done| |done]. cbn. apply Forall_app.
  split; [done|by apply Forall_singleton].
Qed.

Lemma orderly_post : orderly post (λ _, True).
Proof.
  intros w Hw. unfold post. by destruct (backend w) as [|[st d|e] rest].
Qed.

Lemma orderly_store_get k : orderly (store_get k) (λ _, True).
Proof. by intros w Hw. Qed.

Lemma orderly_store_set k v : orderly (store_set k v) (λ _, True).
Proof. by intros w Hw. Qed.

Lemma orderly_get_session : orderly get_session (from_option tidy_session True).
Proof. intros w Hw. split; [done|]. apply Hw. Qed.

Lemma orderly_put_session o :
  from_option tidy_session True o → orderly (put_session o) (λ _, True).
Proof.
  intros Ho w (Hst & Hctx & Hent & Hcalls). split; [|done]. by split_and!.
Qed.

Lemma orderly_storage_read k :
  orderly (storage_read k) (from_option tidy_session True).
Proof.
  intros w Hw. split; [done|]. cbn.
  destruct (sessionStorage w !! k) as [s|] eqn:Hs; [|done].
  by apply Hw in Hs.
Qed.

Lemma orderly_storage_write k o :
  from_option tidy_session True o → orderly (storage_write k o) (λ _, True).
Proof.
  intros Ho w (Hst & Hctx & Hent & Hcalls). split; [|done].
  split_and!; [|done|done|done]. cbn.
  intros k' s'. destruct o as [s|].
  - rewrite lookup_insert. case_decide; [|by apply Hst]. by intros [= <-].
  - rewrite lookup_delete. case_decide; [done|by apply Hst].
Qed.

Lemma tidy_default cfg : tidy_session (defaultSessionData cfg).
Proof. split; [done|]. by exists "en", "🇺🇸 English". Qed.

Lemma tidy_set_userState s : tidy_session s → tidy_session (set_userState idle s).
Proof. by intros [_ Hl]. Qed.

Lemma tidy_set_notificationsEnabled b s :
  tidy_session s → tidy_session (set_notificationsEnabled b s).
Proof. done. Qed.

Lemma tidy_set_joined t s : tidy_session s → tidy_session (set_joined t s).
Proof. done. Qed.

Lemma tidy_set_languageCode l name s :
  languages_get (Some l) = Some name →
  tidy_session s → tidy_session (set_languageCode l s).
Proof. intros Hl [Hidle _]. split; [done|]. by exists l, name. Qed.

Ltac orderly_step :=
  lazymatch goal with
  | |- orderly (bind get_session _) _ =>
      eapply orderly_bind; [apply orderly_get_session|intros ? ?]
  | |- orderly (bind (storage_read _) _) _ =>
      eapply orderly_bind; [apply orderly_storage_read|intros ? ?]
  | |- orderly (bind _ _) _ =>
      apply orderly_bind with (Q := λ _, True); [|intros ? _]
  | |- orderly (try_catch _ _) _ => apply orderly_try_catch; [|intros ?]
  | |- orderly (ret _) _ => by apply orderly_ret
  | |- orderly skip _ => by apply orderly_ret
  | |- orderly (throw _) _ => apply orderly_throw
  | |- orderly (api _) _ => apply orderly_api; cbn; by auto
  | |- orderly (reply _ _) _ => apply orderly_api; cbn; by auto
  | |- orderly (edit _ _) _ => apply orderly_api; cbn; by auto
  | |- orderly (log _ _) _ => apply orderly_log
  | |- orderly (logUserAction _) _ => apply orderly_log
  | |- orderly (logBotEvent _) _ => apply orderly_log
  | |- orderly (enter _) _ => by apply orderly_enter
  | |- orderly post _ => apply orderly_post
  | |- orderly (store_get _) _ => apply orderly_store_get
  | |- orderly (store_set _ _) _ => apply orderly_store_set
  | |- orderly (put_session _) _ => apply orderly_put_session
  | |- orderly (storage_write _ _) _ => apply orderly_storage_write
  | |- orderly (match ?x with _ => _ end) _ => destruct x eqn:?
  end.

Ltac orderly := repeat orderly_step.

Lemma orderly_notifyAdmins ids : orderly (notifyAdmins ids) (λ _, True).
Proof. induction ids as [|i ids IH]; cbn [notifyAdmins]; orderly. exact IH. Qed.

Lemma orderly_handleError cfg e : orderly (handleError cfg e) (λ _, True).
Proof. unfold handleError. orderly. apply orderly_notifyAdmins. Qed.

Lemma orderly_errorMiddleware cfg next :
  orderly next (λ _, True) → orderly (errorMiddleware cfg next) (λ _, True).
Proof.
  intros H. unfold errorMiddleware. apply orderly_try_catch; [done|].
  intros e. apply orderly_handleError.
Qed.

Lemma orderly_reset_userState : orderly reset_userState (λ _, True).
Proof. unfold reset_userState. orderly. by apply tidy_set_userState. Qed.

Lemma orderly_public_commands u :
  orderly (startCommand u) (λ _, True) ∧ orderly helpCommand (λ _, True) ∧
  orderly settingsCommand (λ _, True) ∧ orderly aboutCommand (λ _, True) ∧
  orderly cancelCommand (λ _, True).
Proof.
  split_and!;
    unfold startCommand, helpCommand, settingsCommand, aboutCommand,
      cancelCommand;
    orderly;
    first [ apply orderly_reset_userState | by apply tidy_set_joined ].
Qed.

Lemma orderly_dispatchCallback action params :
  orderly (dispatchCallback action params) (λ _, True).
Proof.
  unfold dispatchCallback, handleActionCallback, handleSettingsCallback,
    handleLanguageCallback, handleBroadcastCallback, set_language.
  orderly;
    first [ apply orderly_reset_userState
          | by apply tidy_set_notificationsEnabled
          | idtac ].
  all: match goal with
       | H : languages_get (Some ?l) = Some ?n |- _ =>
           by apply (tidy_set_languageCode l n)
       end.
Qed.

Lemma orderly_callbackQueryHandler u : orderly (callbackQueryHandler u) (λ _, True).
Proof.
  unfold callbackQueryHandler. orderly. apply orderly_dispatchCallback.
Qed.

Lemma orderly_messages text :
  orderly (textHandler text) (λ _, True) ∧ orderly photoHandler (λ _, True) ∧
  orderly documentHandler (λ _, True) ∧ orderly stickerHandler (λ _, True) ∧
  orderly voiceHandler (λ _, True).
Proof.
  split_and!;
    unfold textHandler, photoHandler, documentHandler, stickerHandler,
      voiceHandler;
    orderly.
Qed.

(** Behind the command validation the routes keep the discipline: the
    admin and debug routes are the ones it never lets through. *)
Lemma orderly_validated_route cfg u :
  orderly (commandValidationMiddleware u (route cfg u)) (λ _, True).
Proof.
  destruct (is_command "stats" u || is_command "broadcast" u
            || is_command "logs" u || is_command "debug" u) eqn:Hadmin.
  - apply orderly_ext with
      (m2 := (await log info "Invalid command received";
              await reply "❓ Unknown command. Use /help to see available commands."
                      (markup helpButton);
              skip)).
    { intros w. by apply commandValidation_blocks_admin. }
    orderly.
  - apply orb_false_elim in Hadmin as [Hadmin Hdebug].
    apply orb_false_elim in Hadmin as [Hadmin Hlogs].
    apply orb_false_elim in Hadmin as [Hstats Hbroadcast].
    assert (orderly (route cfg u) (λ _, True)) as Hroute.
    { destruct (orderly_public_commands u) as (?&?&?&?&?).
      unfold route. rewrite Hstats, Hbroadcast, Hlogs, Hdebug, andb_false_r.
      repeat (match goal with
              | |- orderly (if ?b then _ else _) _ => destruct b; [done|]
              end).
      destruct (orderly_messages "") as (_&?&?&?&?).
      destruct (payload u) as [text| | | | |[d|]|];
        first [ done | apply orderly_messages
              | apply orderly_callbackQueryHandler | by apply orderly_ret ]. }
    unfold commandValidationMiddleware. orderly; exact Hroute.
Qed.

Lemma orderly_dispatchStack cfg u : orderly (dispatchStack cfg u) (λ _, True).
Proof.
  pose proof (orderly_validated_route cfg u) as Hroute.
  unfold dispatchStack, session, conversations.
  orderly; try exact Hroute; try assumption.
  match goal with
  | H : from_option tidy_session True ?o |- _ =>
      destruct o; [exact H|apply tidy_default]
  end.
Qed.

Lemma orderly_rateLimitMiddleware cfg u next :
  orderly next (λ _, True) →
  orderly (rateLimitMiddleware cfg u next) (λ _, True).
Proof. intros Hnext. unfold rateLimitMiddleware. orderly; exact Hnext. Qed.

Lemma tidy_fresh_context w : tidy w → tidy (set_ctx_session None w).
Proof. intros (Hst & Hctx & Hent & Hcalls). by split_and!. Qed.

Lemma handleUpdate_tidy cfg u w : tidy w → tidy (handleUpdate cfg u w).2.
Proof.
  intros Hw. apply tidy_fresh_context in Hw.
  destruct (from u) as [user|] eqn:Hfrom;
    [destruct (decide (user_id user ∈ bannedUsers cfg)) as [Hban|Hban]|].
  - unfold handleUpdate, userValidationMiddleware.
    rewrite Hfrom, bool_decide_eq_true_2 by done.
    change (bind (put_session None) ?k w) with (k tt (set_ctx_session None w)).
    cbv beta. apply orderly_errorMiddleware; [|done]. orderly.
  - rewrite handleUpdate_validated by (by exists user).
    apply orderly_errorMiddleware; [|done].
    apply orderly_rateLimitMiddleware, orderly_dispatchStack.
  - unfold handleUpdate, userValidationMiddleware. rewrite Hfrom.
    change (bind (put_session None) ?k w) with (k tt (set_ctx_session None w)).
    cbv beta. apply orderly_errorMiddleware; [|done]. orderly.
Qed.

Lemma run_tidy cfg (us : list Update) t b : tidy (run cfg us (started t b)).
Proof.
  assert (∀ w, tidy w → tidy (run cfg us w)) as Hrun.
  { induction us as [|u us IH]; intros w Hw; [done|].
    apply IH. rewrite deliver_world. by apply handleUpdate_tidy. }
  apply Hrun. split_and!; [|done|by constructor|by constructor].
  intros k s. cbn. by rewrite lookup_empty.
Qed.

(** X4: the handlers of the admin commands ([/stats], [/broadcast],
    [/logs]) and of the debug command are never entered, whoever sends
    whatever sequence of updates to a freshly started bot, admins
    included, and whatever fails on the way. *)
Theorem admin_handlers_unreachable cfg (us : list Update) t b (h : HandlerName) :
  h ∈ entered (run cfg us (started t b)) →
  h ∉ [h_stats; h_broadcast; h_logs; h_debug].
Proof.
  intros Hin. destruct (run_tidy cfg us t b) as (_ & _ & Hent & _).
  rewrite Forall_forall in Hent. specialize (Hent h Hin).
  intros Hadmin.
  repeat (apply elem_of_cons in Hadmin as [->|Hadmin]; [discriminate Hent|]).
  by apply elem_of_nil in Hadmin.
Qed.

Lemma admin_handlers_unreachable_witness :
  let us := [Sample.msg 1 "/stats" 5000; Sample.msg 1 "/debug" 5001;
             Sample.msg 1 "/help" 5002] in
  let w := started [Some Sample.blocked] [] in
  entered (run Sample.cfg us w) = [h_help]
  ∧ (h_help ∉ [h_stats; h_broadcast; h_logs; h_debug]).
Proof.
  intros us w.
  assert (entered (run Sample.cfg us w) = [h_help]) as Hent by (by vm_compute).
  split; [exact Hent|].
  apply (admin_handlers_unreachable Sample.cfg us [Some Sample.blocked] [] h_help).
  fold w. rewrite Hent. apply list_elem_of_here.
Defined.

(** X5: every call the bot makes to the Bot API carries the parse mode
    HTML or none at all, in every run; the transformer that [createBot]
    installs to fill in a default parse mode therefore never changes a
    call. *)
Theorem parse_mode_settled cfg (us : list Update) t b :
  Forall (λ c, parse_mode_of c = None ∨ parse_mode_of c = Some "HTML")
    (calls (run cfg us (started t b)))
  ∧ defaultParseMode <$> calls (run cfg us (started t b))
    = calls (run cfg us (started t b)).
Proof.
  destruct (run_tidy cfg us t b) as (_ & _ & _ & Hcalls).
  split; [exact Hcalls|].
  induction Hcalls as [|c cs Hc _ IH]; [done|].
  cbn [fmap list_fmap]. f_equal; [|exact IH].
  destruct c as [text o|text o|]; [| |done]; cbn in Hc |- *;
    destruct o as [[p|] kb]; cbn in *; try done;
    destruct Hc as [Hc|Hc]; by simplify_eq.
Qed.

(** X6: no handler ever takes a session out of the idle state: in every
    run, every stored session is idle (the cancel command and the cancel
    button are the only writers of the state, and they write idle). *)
Theorem sessions_stay_idle cfg (us : list Update) t b (k : string)
    (s : SessionData) :
  sessionStorage (run cfg us (started t b)) !! k = Some s →
  userState s = Some idle.
Proof.
  intros Hs. destruct (run_tidy cfg us t b) as (Hst & _).
  by apply Hst in Hs as [? _].
Qed.

(** X7: the language code of a stored session is always one that the
    lookup in the language table answers: the default ["en"], another of
    the four codes, or the name of a member that the table inherits as a
    JavaScript object, which the lookup answers too; no other payload of
    the [lang] namespace reaches the session. *)
Theorem language_code_known cfg (us : list Update) t b (k : string)
    (s : SessionData) :
  sessionStorage (run cfg us (started t b)) !! k = Some s →
  ∃ l name, languageCode s = Some l ∧ languages_get (Some l) = Some name.
Proof.
  intros Hs. destruct (run_tidy cfg us t b) as (Hst & _).
  by apply Hst in Hs as [_ ?].
Qed.

Lemma sessions_stay_idle_witness :
  let us := [Sample.msg 42 "hello" 5000; Sample.press 42 "action:cancel" 5001;
             Sample.msg 42 "/cancel" 5002] in
  sessionStorage (run Sample.cfg us boot) !! "42"
    = Some (defaultSessionData Sample.cfg)
  ∧ userState (defaultSessionData Sample.cfg) = Some idle.
Proof.
  intros us.
  assert (sessionStorage (run Sample.cfg us boot) !! "42"
          = Some (defaultSessionData Sample.cfg)) as Hs by (by vm_compute).
  split; [exact Hs|].
  exact (sessions_stay_idle Sample.cfg us [] [] "42" _ Hs).
Defined.

Lemma language_code_known_witness :
  let us := [Sample.press 42 "lang:ru" 5000] in
  let s := set_languageCode "ru" (defaultSessionData Sample.cfg) in
  sessionStorage (run Sample.cfg us boot) !! "42" = Some s
  ∧ ∃ l name, languageCode s = Some l ∧ languages_get (Some l) = Some name.
Proof.
  intros us s.
  assert (sessionStorage (run Sample.cfg us boot) !! "42" = Some s) as Hs
    by (by vm_compute).
  split; [exact Hs|].
  exact (language_code_known Sample.cfg us [] [] "42" s Hs).
Defined.

(** ** What an update does at most once *)

Section once.

Context {B : Type} (f : World → B) (step : B → B → Prop).
Hypothesis f_outbox : ∀ o t w, f (set_outbox o t w) = f w.
Hypothesis f_logs : ∀ l w, f (set_logs l w) = f w.
Hypothesis f_ctx_session : ∀ s w, f (set_ctx_session s w) = f w.
Hypothesis f_sessionStorage : ∀ m w, f (set_sessionStorage m w) = f w.
Hypothesis f_rateLimitStore : ∀ m w, f (set_rateLimitStore m w) = f w.

Lemma leaves_ret {A} (a : A) : leaves f (ret a).
Proof. by intros w. Qed.

Lemma leaves_throw {A} e : leaves f (@throw A e).
Proof. by intros w. Qed.

Lemma leaves_bind {A C} (m : Async A) (k : A → Async C) :
  leaves f m → (∀ a, leaves f (k a)) → leaves f (bind m k).
Proof.
  intros Hm Hk w. unfold bind. specialize (Hm w).
  destruct (m w) as [[a|e] w']; simpl in *; [|done].
  by rewrite Hk.
Qed.

Lemma leaves_try_catch {A} (m : Async A) (h : JsError → Async A) :
  leaves f m → (∀ e, leaves f (h e)) → leaves f (try_catch m h).
Proof.
  intros Hm Hh w. unfold try_catch. specialize (Hm w).
  destruct (m w) as [[a|e] w']; simpl in *; [done|].
  by rewrite Hh.
Qed.

Lemma leaves_api c : leaves f (api c).
Proof.
  intros w. unfold api.
  destruct (transport w) as [|[e|] rest]; cbn; apply f_outbox.
Qed.

Lemma leaves_log l s : leaves f (log l s).
Proof. intros w. apply f_logs. Qed.

Lemma leaves_get_session : leaves f get_session.
Proof. by intros w. Qed.

Lemma leaves_put_session s : leaves f (put_session s).
Proof. intros w. apply f_ctx_session. Qed.

Lemma leaves_storage_read k : leaves f (storage_read k).
Proof. by intros w. Qed.

Lemma leaves_storage_write k v : leaves f (storage_write k v).
Proof. intros w. apply f_sessionStorage. Qed.

Lemma leaves_store_get k : leaves f (store_get k).
Proof. by intros w. Qed.

Lemma leaves_store_set k v : leaves f (store_set k v).
Proof. intros w. apply f_rateLimitStore. Qed.

Lemma leaves_notifyAdmins ids : leaves f (notifyAdmins ids).
Proof.
  induction ids as [|i ids IH]; cbn [notifyAdmins]; [apply leaves_ret|].
  apply leaves_bind; [apply leaves_log|done].
Qed.

Lemma leaves_handleError cfg e : leaves f (handleError cfg e).
Proof.
  unfold handleError. apply leaves_bind; [apply leaves_log|intros _].
  destruct (classify (message e)) as [errorType userMessage].
  apply leaves_bind.
  - apply leaves_try_catch; [apply leaves_api|intros; apply leaves_log].
  - intros _. destruct (is_critical errorType);
      [apply leaves_notifyAdmins|apply leaves_ret].
Qed.

Lemma once_leaves {A} (m : Async A) : leaves f m → once f step m.
Proof. intros Hm w. by left. Qed.

Lemma once_bind_l {A C} (m : Async A) (k : A → Async C) :
  leaves f m → (∀ a, once f step (k a)) → once f step (bind m k).
Proof.
  intros Hm Hk w. unfold bind. specialize (Hm w).
  destruct (m w) as [[a|e] w']; simpl in *; [|by left].
  rewrite <-Hm. apply Hk.
Qed.

Lemma once_bind_r {A C} (m : Async A) (k : A → Async C) :
  once f step m → (∀ a, leaves f (k a)) → once f step (bind m k).
Proof.
  intros Hm Hk w. unfold bind. specialize (Hm w).
  destruct (m w) as [[a|e] w']; simpl in *; [|done].
  by rewrite Hk.
Qed.

Lemma once_try_catch {A} (m : Async A) (h : JsError → Async A) :
  once f step m → (∀ e, leaves f (h e)) → once f step (try_catch m h).
Proof.
  intros Hm Hh w. unfold try_catch. specialize (Hm w).
  destruct (m w) as [[a|e] w']; simpl in *; [done|].
  by rewrite Hh.
Qed.

Lemma once_adminMiddleware cfg u next :
  once f step next → once f step (adminMiddleware cfg u next).
Proof.
  intros Hnext. unfold adminMiddleware. case_match; [|done].
  apply once_leaves.
  apply leaves_bind; [apply leaves_api|intros _].
  apply leaves_bind; [apply leaves_log|intros _; apply leaves_ret].
Qed.

Lemma once_commandValidationMiddleware u next :
  once f step next → once f step (commandValidationMiddleware u next).
Proof.
  intros Hnext. unfold commandValidationMiddleware.
  repeat case_match; try done.
  apply once_leaves.
  apply leaves_bind; [apply leaves_log|intros _].
  apply leaves_bind; [apply leaves_api|intros _; apply leaves_ret].
Qed.

Lemma once_session cfg u next :
  once f step next → once f step (session cfg u next).
Proof.
  intros Hnext. unfold session.
  apply once_bind_l; [apply leaves_storage_read|intros stored].
  apply once_bind_l; [apply leaves_put_session|intros _].
  apply once_bind_r; [done|intros _].
  apply leaves_bind; [apply leaves_get_session|intros s].
  apply leaves_storage_write.
Qed.

Lemma once_rateLimitMiddleware cfg u next :
  once f step next → once f step (rateLimitMiddleware cfg u next).
Proof.
  intros Hnext. unfold rateLimitMiddleware.
  apply once_bind_l; [apply leaves_store_get|intros l].
  repeat case_match;
    first [ apply once_bind_l; [apply leaves_store_set|by intros _]
          | apply once_leaves;
            apply leaves_bind; [apply leaves_api|intros _; apply leaves_ret] ].
Qed.

Lemma once_userValidationMiddleware cfg u next :
  once f step next → once f step (userValidationMiddleware cfg u next).
Proof.
  intros Hnext. unfold userValidationMiddleware.
  destruct (from u) as [user|].
  - case_match.
    + apply once_leaves.
      apply leaves_bind; [apply leaves_log|intros _].
      apply leaves_bind; [apply leaves_api|intros _; apply leaves_ret].
    + apply once_bind_l; [apply leaves_get_session|intros s].
      apply once_bind_l; [|by intros _].
      destruct s; [apply leaves_put_session|apply leaves_ret].
  - apply once_leaves.
    apply leaves_bind; [apply leaves_log|intros _; apply leaves_ret].
Qed.

(** Around the routes, the stack adds no step of its own. *)
Lemma once_handleUpdate cfg u :
  once f step (route cfg u) → once f step (handleUpdate cfg u).
Proof.
  intros Hroute. unfold handleUpdate.
  apply once_bind_l; [apply leaves_put_session|intros _].
  apply once_try_catch; [|intros e; apply leaves_handleError].
  apply once_userValidationMiddleware, once_rateLimitMiddleware, once_session.
  unfold conversations. by apply once_commandValidationMiddleware.
Qed.

End once.

Ltac leaves_step :=
  lazymatch goal with
  | |- leaves _ (bind _ _) => apply leaves_bind; [|intros ?]
  | |- leaves _ (try_catch _ _) => apply leaves_try_catch; [|intros ?]
  | |- leaves _ (ret _) => apply leaves_ret
  | |- leaves _ skip => apply leaves_ret
  | |- leaves _ (throw _) => apply leaves_throw
  | |- leaves _ (api _) => by apply leaves_api
  | |- leaves _ (reply _ _) => by apply leaves_api
  | |- leaves _ (edit _ _) => by apply leaves_api
  | |- leaves _ (log _ _) => by apply leaves_log
  | |- leaves _ (logUserAction _) => by apply leaves_log
  | |- leaves _ (logBotEvent _) => by apply leaves_log
  | |- leaves _ get_session => apply leaves_get_session
  | |- leaves _ (put_session _) => by apply leaves_put_session
  | |- leaves _ (let _ := _ in _) => cbv zeta
  | |- leaves _ (match ?x with _ => _ end) => destruct x eqn:?
  end.

Ltac leaves := repeat leaves_step.

Lemma leaves_entered_post : leaves entered post.
Proof. intros w. unfold post. by destruct (backend w) as [|[st d|e] rest]. Qed.

Lemma leaves_backend_enter h : leaves backend (enter h).
Proof. by intros w. Qed.

Lemma leaves_reset_userState {B} (f : World → B) :
  (∀ s w, f (set_ctx_session s w) = f w) → leaves f reset_userState.
Proof. intros Hf. unfold reset_userState. leaves. Qed.

Lemma leaves_dispatchCallback {B} (f : World → B) action params :
  (∀ o t w, f (set_outbox o t w) = f w) →
  (∀ l w, f (set_logs l w) = f w) →
  (∀ s w, f (set_ctx_session s w) = f w) →
  leaves f (dispatchCallback action params).
Proof.
  intros Hout Hlogs Hctx.
  pose proof (leaves_reset_userState f Hctx) as Hreset.
  unfold dispatchCallback, handleActionCallback, handleSettingsCallback,
    handleLanguageCallback, handleBroadcastCallback, set_language.
  leaves; exact Hreset.
Qed.

(** *** Handlers *)

Lemma once_enter_then h (body : Async unit) :
  leaves entered body → once entered one_more (await enter h; body).
Proof.
  intros Hbody w. right. exists h. unfold bind, enter. cbn. by rewrite Hbody.
Qed.

Lemma once_entered_commands u :
  once entered one_more (startCommand u) ∧ once entered one_more helpCommand ∧
  once entered one_more settingsCommand ∧ once entered one_more aboutCommand ∧
  once entered one_more cancelCommand ∧ once entered one_more (statsCommand u) ∧
  once entered one_more (broadcastCommand u) ∧ once entered one_more logsCommand ∧
  once entered one_more (debugCommand u).
Proof.
  pose proof leaves_entered_post as Hpost.
  pose proof (leaves_reset_userState entered (λ _ _, eq_refl)) as Hreset.
  split_and!; apply once_enter_then; leaves; first [exact Hpost|exact Hreset].
Qed.

Lemma once_entered_messages u text :
  once entered one_more (callbackQueryHandler u) ∧
  once entered one_more (textHandler text) ∧ once entered one_more photoHandler ∧
  once entered one_more documentHandler ∧ once entered one_more stickerHandler ∧
  once entered one_more voiceHandler.
Proof.
  split_and!; apply once_enter_then; leaves.
  by apply leaves_dispatchCallback.
Qed.

Lemma once_entered_route cfg u : once entered one_more (route cfg u).
Proof.
  destruct (once_entered_commands u) as (?&?&?&?&?&?&?&?&?).
  unfold route.
  repeat (match goal with
          | |- once _ _ (if ?b then _ else _) =>
              destruct b; [first [done | by apply once_adminMiddleware]|]
          end).
  destruct (once_entered_messages u "") as (?&_&?&?&?&?).
  destruct (payload u) as [text| | | | |[d|]|];
    first [ done | apply (once_entered_messages u)
          | apply once_leaves; apply leaves_ret ].
Qed.

(** X8: an update is handled by one handler at most: whatever the update
    and the world, the stack enters no handler or exactly one. *)
Theorem at_most_one_handler cfg (u : Update) (w : World) :
  entered (handleUpdate cfg u w).2 = entered w
  ∨ ∃ h, entered (handleUpdate cfg u w).2 = entered w ++ [h].
Proof.
  apply (once_handleUpdate entered one_more); try done.
  apply once_entered_route.
Qed.

(** *** The registration endpoint *)

Lemma once_backend_post u a rest :
  is_command "start" u = true →
  inviterId u = Some (String a rest) →
  once backend (one_post u) post.
Proof.
  intros Hstart Hinv w. unfold post.
  destruct (backend w) as [|[st d|e] t] eqn:Hb; [by left|right..];
    unfold one_post; (split_and!; [done|by exists a, rest|done]).
Qed.

Lemma once_backend_startCommand u :
  is_command "start" u = true → once backend (one_post u) (startCommand u).
Proof.
  intros Hstart. unfold startCommand.
  apply once_bind_l; [apply leaves_backend_enter|intros _].
  apply once_bind_l; [by apply leaves_log|intros _].
  apply once_bind_l; [apply leaves_get_session|intros s].
  destruct s as [sd|]; [|apply once_leaves, leaves_throw].
  apply once_bind_l; [leaves|intros _]. cbv zeta.
  fold (inviterId u). destruct (inviterId u) as [[|a rest]|] eqn:Hinv;
    try (apply once_leaves; by apply leaves_api).
  apply once_bind_r; [by eapply once_backend_post|].
  intros req. leaves.
Qed.

Lemma leaves_backend_handlers u text :
  leaves backend helpCommand ∧ leaves backend settingsCommand ∧
  leaves backend aboutCommand ∧ leaves backend cancelCommand ∧
  leaves backend (statsCommand u) ∧ leaves backend (broadcastCommand u) ∧
  leaves backend logsCommand ∧ leaves backend (debugCommand u) ∧
  leaves backend (callbackQueryHandler u) ∧ leaves backend (textHandler text) ∧
  leaves backend photoHandler ∧ leaves backend documentHandler ∧
  leaves backend stickerHandler ∧ leaves backend voiceHandler.
Proof.
  pose proof (leaves_reset_userState backend (λ _ _, eq_refl)) as Hreset.
  split_and!;
    (apply leaves_bind; [apply leaves_backend_enter|intros _]);
    leaves; first [ exact Hreset | by apply leaves_dispatchCallback ].
Qed.

Lemma once_backend_route cfg u : once backend (one_post u) (route cfg u).
Proof.
  destruct (leaves_backend_handlers u "") as (?&?&?&?&?&?&?&?&?&_&?&?&?&?).
  unfold route.
  destruct (is_command "start" u) eqn:Hstart;
    [by apply once_backend_startCommand|].
  repeat (match goal with
          | |- once _ _ (if ?b then _ else _) =>
              destruct b;
              [first [ by apply once_leaves
                     | by apply once_adminMiddleware; [done..|apply once_leaves] ]|]
          end).
  destruct (payload u) as [text| | | | |[d|]|];
    first [ by apply once_leaves
          | apply once_leaves; apply (leaves_backend_handlers u)
          | apply once_leaves; apply leaves_ret ].
Qed.

(** X9: the registration endpoint is contacted at most once per update,
    and only by a [/start] that carries an inviter id, that is, a text
    after the first six characters that [trim] does not reduce to nothing:
    for every other update, rejected or handled, the answers scripted for
    the endpoint are all still there afterwards. *)
Theorem registration_only_by_start cfg (u : Update) (w : World) :
  (backend (handleUpdate cfg u w).2 = backend w
   ∨ (is_command "start" u = true
      ∧ (∃ a rest, inviterId u = Some (String a rest))
      ∧ backend (handleUpdate cfg u w).2 = tail (backend w)))
  ∧ (is_command "start" u = false ∨ inviterId u = None ∨ inviterId u = Some "" →
     backend (handleUpdate cfg u w).2 = backend w).
Proof.
  assert (backend (handleUpdate cfg u w).2 = backend w
          ∨ one_post u (backend w) (backend (handleUpdate cfg u w).2)) as Honce.
  { apply (once_handleUpdate backend (one_post u)); try done.
    apply once_backend_route. }
  split; [exact Honce|].
  intros Hnone. destruct Honce as [Hsame|(Hstart & (a & rest & Hinv) & _)];
    [exact Hsame|].
  destruct Hnone as [Hno|[Hno|Hno]]; congruence.
Qed.

(** A [/start] followed by a blank and a no-break space (U+00A0) carries
    no inviter id, since [trim] takes the no-break space away as well: the
    answer scripted for the endpoint is still there afterwards. *)
Lemma registration_only_by_start_witness :
  let nbsp := String (ascii_of_nat 194) (String (ascii_of_nat 160) "") in
  let u := Sample.msg 42 ("/start " +:+ nbsp) 5000 in
  let w := started [] [PostReturns (Some 201) "ok"] in
  is_command "start" u = true
  ∧ inviterId u = Some ""
  ∧ backend (handleUpdate Sample.cfg u w).2 = [PostReturns (Some 201) "ok"].
Proof.
  intros nbsp u w.
  assert (inviterId u = Some "") as Hinv by (by vm_compute).
  split; [by vm_compute|]. split; [exact Hinv|].
  destruct (registration_only_by_start Sample.cfg u w) as [_ Hnone].
  apply Hnone. right. right. exact Hinv.
Defined.

(** ** A button press through the whole stack *)

Lemma route_callback cfg u d :
  payload u = CallbackQuery (Some d) → route cfg u = callbackQueryHandler u.
Proof.
  intros Hp. unfold route, is_command, message_text. rewrite Hp.
  by rewrite andb_false_r.
Qed.

Lemma dispatchStack_callback cfg u d :
  payload u = CallbackQuery (Some d) →
  dispatchStack cfg u = session cfg u (callbackQueryHandler u).
Proof.
  intros Hp. unfold dispatchStack, conversations, commandValidationMiddleware.
  rewrite (route_callback cfg u d Hp). unfold message_text. by rewrite Hp.
Qed.

(** The session plugin around a handler that returns: the session the
    handler leaves on the context is what the storage holds afterwards. *)
Lemma session_returns cfg u (next : Async unit) w w' :
  next (set_ctx_session
          (Some (default (defaultSessionData cfg)
                   (sessionStorage w !! Js.toString (chat_id u)))) w)
    = (Returned tt, w') →
  session cfg u next w =
    (Returned tt,
     set_sessionStorage
       (match ctx_session w' with
        | Some s => <[Js.toString (chat_id u) := s]> (sessionStorage w')
        | None => delete (Js.toString (chat_id u)) (sessionStorage w')
        end) w').
Proof.
  intros Hnext.
  unfold session, bind, storage_read, put_session, get_session, storage_write.
  cbn. by rewrite Hnext.
Qed.

Lemma bind_get_session {B} (k : option SessionData → Async B) w :
  bind get_session k w = k (ctx_session w) w.
Proof. done. Qed.

Lemma bind_put_session {B} s (k : unit → Async B) w :
  bind (put_session s) k w = k tt (set_ctx_session s w).
Proof. done. Qed.

Lemma bind_set_language {B} l sd (k : unit → Async B) w :
  ctx_session w = Some sd →
  bind (set_language (Some l)) k w
    = k tt (set_ctx_session (Some (set_languageCode l sd)) w).
Proof.
  intros Hctx. unfold bind at 1. unfold set_language.
  rewrite bind_get_session, Hctx. by unfold put_session.
Qed.

(** The handler up to the [switch]: the press is logged and answered. *)
Lemma callbackQueryHandler_answered u data action params w :
  callbackData u = Some data →
  data ≠ "" →
  Js.split ":" data = (action, params) →
  transport_ok w →
  ∃ w1,
    callbackQueryHandler u w =
      try_catch (dispatchCallback action params)
        (λ err,
          await log console_error "Error handling callback:";
          edit "❌ An error occurred. Please try again." (markup keyboards.mainMenu))
        w1
    ∧ transport_ok w1
    ∧ calls w1 = calls w ++ [answerCallbackQuery]
    ∧ ctx_session w1 = ctx_session w
    ∧ sessionStorage w1 = sessionStorage w
    ∧ rateLimitStore w1 = rateLimitStore w
    ∧ entered w1 = entered w ++ [h_callback].
Proof.
  intros Hdata Hne Hsplit Hok.
  assert (Js.truthy_string data = true) as Htruthy by (by destruct data).
  set (w0 := set_logs (logs w ++ [{| level := info;
                                     line := "User Action: callback_query" |}])
               (set_entered (entered w ++ [h_callback]) w)).
  exists (set_outbox (outbox w0 ++ [{| call := answerCallbackQuery;
                                       delivered := true |}])
            (tail (transport w0)) w0).
  split_and!; try done.
  - unfold callbackQueryHandler. rewrite Hdata, Htruthy. cbn [negb].
    rewrite bind_enter. unfold logUserAction. rewrite bind_log.
    rewrite bind_api_ok by exact Hok. by rewrite Hsplit.
  - by apply transport_ok_tail.
  - unfold calls. cbn. by rewrite fmap_app.
Qed.

(** X10: choosing a language arrives in the session.  When a validated
    sender whom the limiter lets pass presses a button [lang:<code>] whose
    code the language table answers, and the transport accepts the calls,
    the stack returns normally, the session stored for the chat carries
    that code, and the message is edited to the confirmation that names
    the language, with the settings keyboard. *)
Theorem language_choice_stored cfg u w data l rest name :
  validated cfg u →
  payload u = CallbackQuery (Some data) →
  Js.split ":" data = ("lang", l :: rest) →
  languages_get (Some l) = Some name →
  (admission cfg (rateLimitKey u) (now u) (rateLimitStore w)).1 = true →
  transport_ok w →
  let out := handleUpdate cfg u w in
  out.1 = Returned tt
  ∧ sessionStorage out.2 !! Js.toString (chat_id u)
      = Some (set_languageCode l
                (default (defaultSessionData cfg)
                   (sessionStorage w !! Js.toString (chat_id u))))
  ∧ calls out.2 =
      calls w ++ [answerCallbackQuery;
                  editMessageText ("✅ Language changed to " +:+ name)
                    (markup keyboards.settings)].
Proof.
  intros Hv Hp Hsplit Hname Hadm Hok out. subst out.
  destruct (admission cfg (rateLimitKey u) (now u) (rateLimitStore w))
    as [ok st] eqn:Hadmission. cbn in Hadm. subst ok.
  rewrite (handleUpdate_pass cfg u w st Hv Hadmission).
  rewrite (dispatchStack_callback cfg u data Hp).
  set (sd := default (defaultSessionData cfg)
               (sessionStorage w !! Js.toString (chat_id u))).
  set (w0 := set_ctx_session (Some sd)
               (set_rateLimitStore st (set_ctx_session None w))).
  assert (data ≠ "") as Hne by (by intros ->).
  assert (callbackData u = Some data) as Hdata
    by (unfold callbackData; by rewrite Hp).
  destruct (callbackQueryHandler_answered u data "lang" (l :: rest) w0
              Hdata Hne Hsplit Hok)
    as (w1 & Hrun & Hok1 & Hcalls1 & Hctx1 & Hst1 & _).
  assert (callbackQueryHandler u w0 =
          (Returned tt,
           set_outbox
             (outbox w1 ++ [{| call := editMessageText
                                         ("✅ Language changed to " +:+ name)
                                         (markup keyboards.settings);
                               delivered := true |}])
             (tail (transport w1))
             (set_logs (logs w1 ++ [{| level := info;
                                       line := "User Action: language_change" |}])
                (set_ctx_session (Some (set_languageCode l sd)) w1))))
    as Hhandler.
  { rewrite Hrun. unfold try_catch, dispatchCallback, handleLanguageCallback.
    rewrite !bool_decide_eq_false_2 by done.
    rewrite bool_decide_eq_true_2 by done. cbn [head]. rewrite Hname.
    rewrite (bind_set_language l sd) by (by rewrite Hctx1).
    unfold logUserAction. rewrite bind_log. unfold edit.
    by rewrite api_ok by exact Hok1. }
  unfold errorMiddleware, try_catch.
  rewrite (session_returns cfg u _ _ _ Hhandler). cbn.
  split; [done|]. split.
  - by rewrite lookup_insert_eq.
  - unfold calls in *. cbn. rewrite fmap_app, Hcalls1. cbn.
    by rewrite <-app_assoc.
Qed.

Lemma language_choice_stored_witness :
  let u := Sample.press 42 "lang:es" 5000 in
  let out := handleUpdate Sample.cfg u boot in
  validated Sample.cfg u
  ∧ sessionStorage out.2 !! "42"
      = Some (set_languageCode "es" (defaultSessionData Sample.cfg))
  ∧ calls out.2 =
      [answerCallbackQuery;
       editMessageText "✅ Language changed to 🇪🇸 Español"
         (markup keyboards.settings)].
Proof.
  intros u out.
  assert (validated Sample.cfg u) as Hv.
  { exists (Sample.user 42). split; [reflexivity|].
    apply (bool_decide_unpack _). vm_compute. reflexivity. }
  split; [exact Hv|].
  destruct (language_choice_stored Sample.cfg u boot "lang:es" "es" []
              "🇪🇸 Español" Hv eq_refl eq_refl eq_refl eq_refl
              (Forall_nil_2 _))
    as (_ & Hstored & Hcalls).
  split; [exact Hstored|exact Hcalls].
Defined.

(** X11: the notifications button flips the setting of the chat, an unset
    flag counting as enabled.  When a validated sender whom the limiter
    lets pass presses [settings:notifications] and the transport accepts
    the calls, the session stored for the chat has the flag negated (so
    the first press on a new session disables, and two presses restore),
    and the message names the new state. *)
Theorem notifications_flip cfg u w data rest :
  validated cfg u →
  payload u = CallbackQuery (Some data) →
  Js.split ":" data = ("settings", "notifications" :: rest) →
  (admission cfg (rateLimitKey u) (now u) (rateLimitStore w)).1 = true →
  transport_ok w →
  let out := handleUpdate cfg u w in
  let before := default (defaultSessionData cfg)
                  (sessionStorage w !! Js.toString (chat_id u)) in
  let enabled := negb (default true (notificationsEnabled before)) in
  out.1 = Returned tt
  ∧ sessionStorage out.2 !! Js.toString (chat_id u)
      = Some (set_notificationsEnabled enabled before)
  ∧ calls out.2 =
      calls w ++ [answerCallbackQuery;
                  editMessageText (notificationsMessage enabled)
                    (html_markup keyboards.settings)].
Proof.
  intros Hv Hp Hsplit Hadm Hok out sd enabled. subst out.
  destruct (admission cfg (rateLimitKey u) (now u) (rateLimitStore w))
    as [ok st] eqn:Hadmission. cbn in Hadm. subst ok.
  rewrite (handleUpdate_pass cfg u w st Hv Hadmission).
  rewrite (dispatchStack_callback cfg u data Hp).
  set (w0 := set_ctx_session (Some sd)
               (set_rateLimitStore st (set_ctx_session None w))).
  assert (data ≠ "") as Hne by (by intros ->).
  assert (callbackData u = Some data) as Hdata
    by (unfold callbackData; by rewrite Hp).
  destruct (callbackQueryHandler_answered u data "settings"
              ("notifications" :: rest) w0 Hdata Hne Hsplit Hok)
    as (w1 & Hrun & Hok1 & Hcalls1 & Hctx1 & Hst1 & _).
  assert (callbackQueryHandler u w0 =
          (Returned tt,
           set_outbox
             (outbox w1 ++ [{| call := editMessageText
                                         (notificationsMessage enabled)
                                         (html_markup keyboards.settings);
                               delivered := true |}])
             (tail (transport w1))
             (set_ctx_session (Some (set_notificationsEnabled enabled sd)) w1)))
    as Hhandler.
  { rewrite Hrun. unfold try_catch, dispatchCallback, handleSettingsCallback.
    rewrite bool_decide_eq_false_2 by done.
    rewrite bool_decide_eq_true_2 by done. cbn [head].
    rewrite bool_decide_eq_false_2 by done.
    rewrite bool_decide_eq_true_2 by done.
    rewrite bind_get_session, Hctx1. change (ctx_session w0) with (Some sd).
    cbv beta iota zeta. rewrite bind_put_session.
    unfold edit. by rewrite api_ok by exact Hok1. }
  unfold errorMiddleware, try_catch.
  rewrite (session_returns cfg u _ _ _ Hhandler). cbn.
  split; [done|]. split.
  - by rewrite lookup_insert_eq.
  - unfold calls in *. cbn. rewrite fmap_app, Hcalls1. cbn.
    by rewrite <-app_assoc.
Qed.

Lemma notifications_flip_witness :
  let u := Sample.press 42 "settings:notifications" 5000 in
  let once := (handleUpdate Sample.cfg u boot).2 in
  let twice := (handleUpdate Sample.cfg u once).2 in
  validated Sample.cfg u
  ∧ sessionStorage once !! "42"
      = Some (set_notificationsEnabled false (defaultSessionData Sample.cfg))
  ∧ sessionStorage twice !! "42"
      = Some (set_notificationsEnabled true
                (set_notificationsEnabled false (defaultSessionData Sample.cfg))).
Proof.
  intros u once twice.
  assert (validated Sample.cfg u) as Hv.
  { exists (Sample.user 42). split; [reflexivity|].
    apply (bool_decide_unpack _). vm_compute. reflexivity. }
  split; [exact Hv|].
  destruct (notifications_flip Sample.cfg u boot "settings:notifications" []
              Hv eq_refl eq_refl eq_refl (Forall_nil_2 _)) as (_ & Hfirst & _).
  split; [exact Hfirst|].
  assert (transport_ok once) as Hok by (vm_compute; constructor).
  assert ((admission Sample.cfg (rateLimitKey u) (now u) (rateLimitStore once)).1
          = true) as Hadm by (by vm_compute).
  destruct (notifications_flip Sample.cfg u once "settings:notifications" []
              Hv eq_refl eq_refl Hadm Hok) as (_ & Hsecond & _).
  refine (eq_trans Hsecond _). by vm_compute.
Defined.

(** ** Buttons and what they lead to *)

Lemma bind_reset_userState {B} sd (k : unit → Async B) w :
  ctx_session w = Some sd →
  bind reset_userState k w = k tt (set_ctx_session (Some (set_userState idle sd)) w).
Proof.
  intros Hctx. unfold bind at 1. unfold reset_userState.
  rewrite bind_get_session, Hctx. by unfold put_session.
Qed.

Lemma edit_ok text o w :
  transport_ok w →
  (edit text o w).1 = Returned tt
  ∧ calls (edit text o w).2 = calls w ++ [editMessageText text o].
Proof.
  intros Hok. unfold edit. rewrite api_ok by done. split; [done|].
  unfold calls. cbn. by rewrite fmap_app.
Qed.

(** A known verb of the [action] namespace edits the message once, and
    not to a fallback text. *)
Lemma action_known (v : string) w sd :
  v ∈ ["main"; "help"; "about"; "settings"; "back"; "cancel"; "retry"; "support"] →
  ctx_session w = Some sd →
  transport_ok w →
  ∃ text o,
    (handleActionCallback (Some v) w).1 = Returned tt
    ∧ calls (handleActionCallback (Some v) w).2 = calls w ++ [editMessageText text o]
    ∧ text ∉ fallback_texts.
Proof.
  intros Hv Hctx Hok.
  assert (∀ text, text ∉ fallback_texts ↔ bool_decide (text ∉ fallback_texts) = true)
    as Hdec by (intros; by rewrite bool_decide_eq_true).
  repeat (apply elem_of_cons in Hv as [->|Hv]);
    [..|by apply elem_of_nil in Hv];
    unfold handleActionCallback;
    repeat (first [ rewrite bool_decide_eq_true_2 by done
                  | rewrite bool_decide_eq_false_2 by done ]);
    try rewrite (bind_reset_userState sd) by done;
    (eexists _, _; split_and!;
     [ apply edit_ok; exact Hok
     | etrans; [apply edit_ok; exact Hok|reflexivity]
     | apply Hdec; by vm_compute ]).
Qed.

Lemma settings_known (v : string) w sd :
  v ∈ ["language"; "notifications"] →
  ctx_session w = Some sd →
  transport_ok w →
  ∃ text o,
    (handleSettingsCallback (Some v) w).1 = Returned tt
    ∧ calls (handleSettingsCallback (Some v) w).2
        = calls w ++ [editMessageText text o]
    ∧ text ∉ fallback_texts.
Proof.
  intros Hv Hctx Hok.
  assert (∀ text, text ∉ fallback_texts ↔ bool_decide (text ∉ fallback_texts) = true)
    as Hdec by (intros; by rewrite bool_decide_eq_true).
  repeat (apply elem_of_cons in Hv as [->|Hv]);
    [..|by apply elem_of_nil in Hv];
    unfold handleSettingsCallback;
    repeat (first [ rewrite bool_decide_eq_true_2 by done
                  | rewrite bool_decide_eq_false_2 by done ]).
  - eexists _, _; split_and!;
      [ apply edit_ok; exact Hok
      | etrans; [apply edit_ok; exact Hok|reflexivity]
      | apply Hdec; by vm_compute ].
  - rewrite bind_get_session, Hctx. cbv beta iota zeta.
    rewrite bind_put_session.
    eexists _, _; split_and!;
      [ apply edit_ok; exact Hok
      | etrans; [apply edit_ok; exact Hok|reflexivity]
      | ].
    unfold notificationsMessage.
    destruct (negb (default true (notificationsEnabled sd)));
      apply Hdec; by vm_compute.
Qed.

Lemma language_known (v name : string) w sd :
  languages_get (Some v) = Some name →
  ctx_session w = Some sd →
  transport_ok w →
  ∃ text o,
    (handleLanguageCallback (Some v) w).1 = Returned tt
    ∧ calls (handleLanguageCallback (Some v) w).2
        = calls w ++ [editMessageText text o]
    ∧ text ∉ fallback_texts.
Proof.
  intros Hname Hctx Hok. unfold handleLanguageCallback. rewrite Hname.
  rewrite (bind_set_language v sd) by done.
  unfold logUserAction. rewrite bind_log.
  eexists _, _; split_and!;
    [ apply edit_ok; exact Hok
    | etrans; [apply edit_ok; exact Hok|reflexivity]
    | ].
  intros Hin. unfold fallback_texts in Hin.
  repeat (apply elem_of_cons in Hin as [Hin|Hin]; [discriminate Hin|]).
  by apply elem_of_nil in Hin.
Qed.

Lemma broadcast_confirm_known rest w :
  transport_ok w →
  ∃ text o,
    (handleBroadcastCallback ("confirm" :: rest) w).1 = Returned tt
    ∧ calls (handleBroadcastCallback ("confirm" :: rest) w).2
        = calls w ++ [editMessageText text o]
    ∧ text ∉ fallback_texts.
Proof.
  intros Hok. unfold handleBroadcastCallback. cbn [head].
  rewrite bool_decide_eq_true_2 by done.
  unfold edit. rewrite bind_api_ok by done. unfold logUserAction, log. cbn.
  eexists _, _; split_and!; [done| |].
  - unfold calls. cbn. by rewrite fmap_app.
  - apply (bool_decide_unpack _). by vm_compute.
Qed.

Lemma split_cons c a s :
  Js.split c (String a s)
  = (let '(hd, tl) := Js.split c s in
     if decide (a = c) then (EmptyString, hd :: tl) else (String a hd, tl)).
Proof. reflexivity. Qed.

Lemma split_broadcast_confirm s :
  ∃ rest, Js.split ":" ("broadcast:confirm:" +:+ s) = ("broadcast", "confirm" :: rest).
Proof.
  destruct (Js.split ":" s) as [hd tl] eqn:Hs. exists (hd :: tl).
  cbv [String.append]. rewrite !split_cons, Hs. reflexivity.
Qed.

(** What a press does when the [switch] and the sub-handler behind it edit
    the message once. *)
Lemma press_edits u data action params w sd :
  callbackData u = Some data →
  data ≠ "" →
  Js.split ":" data = (action, params) →
  ctx_session w = Some sd →
  transport_ok w →
  (∀ w1, ctx_session w1 = Some sd → transport_ok w1 →
     ∃ text o,
       (dispatchCallback action params w1).1 = Returned tt
       ∧ calls (dispatchCallback action params w1).2
           = calls w1 ++ [editMessageText text o]
       ∧ text ∉ fallback_texts) →
  ∃ text o,
    (callbackQueryHandler u w).1 = Returned tt
    ∧ calls (callbackQueryHandler u w).2
        = calls w ++ [answerCallbackQuery; editMessageText text o]
    ∧ text ∉ fallback_texts.
Proof.
  intros Hdata Hne Hsplit Hctx Hok Hdispatch.
  destruct (callbackQueryHandler_answered u data action params w
              Hdata Hne Hsplit Hok)
    as (w1 & Hrun & Hok1 & Hcalls1 & Hctx1 & _).
  destruct (Hdispatch w1 (eq_trans Hctx1 Hctx) Hok1)
    as (text & o & Hret & Hcalls & Hfallback).
  exists text, o. rewrite Hrun. unfold try_catch.
  destruct (dispatchCallback action params w1) as [[[]|e] w2];
    [|discriminate Hret].
  cbn in *. split_and!; [done| |done].
  by rewrite Hcalls, Hcalls1, <-app_assoc.
Qed.

(** X12: no button of the bot is a dead end.  For every keyboard of the
    sources and every callback button on it, pressing the button (with a
    session on the context and the transport accepting the calls) is
    answered and edits the message exactly once, and never to one of the
    fallback texts for unknown actions, settings or languages or for
    errors. *)
Theorem no_dead_button (t : Z) (kb : Keyboard) (data : string) u w sd :
  kb ∈ all_keyboards t →
  data ∈ payloads kb →
  callbackData u = Some data →
  ctx_session w = Some sd →
  transport_ok w →
  ∃ text o,
    (callbackQueryHandler u w).1 = Returned tt
    ∧ calls (callbackQueryHandler u w).2
        = calls w ++ [answerCallbackQuery; editMessageText text o]
    ∧ text ∉ fallback_texts.
Proof.
  intros Hkb Hdata Hu Hctx Hok.
  assert (∀ v, v ∈ ["main"; "help"; "about"; "settings"; "back"; "cancel";
                    "retry"; "support"] →
            Js.split ":" data = ("action", [v]) → data ≠ "" →
            ∃ text o,
              (callbackQueryHandler u w).1 = Returned tt
              ∧ calls (callbackQueryHandler u w).2
                  = calls w ++ [answerCallbackQuery; editMessageText text o]
              ∧ text ∉ fallback_texts) as Haction.
  { intros v Hv Hsplit Hne.
    apply (press_edits u data "action" [v] w sd); try done.
    intros w1 Hctx1 Hok1. unfold dispatchCallback.
    rewrite bool_decide_eq_true_2 by done. by apply (action_known v w1 sd). }
  assert (∀ v, v ∈ ["language"; "notifications"] →
            Js.split ":" data = ("settings", [v]) → data ≠ "" →
            ∃ text o,
              (callbackQueryHandler u w).1 = Returned tt
              ∧ calls (callbackQueryHandler u w).2
                  = calls w ++ [answerCallbackQuery; editMessageText text o]
              ∧ text ∉ fallback_texts) as Hsettings.
  { intros v Hv Hsplit Hne.
    apply (press_edits u data "settings" [v] w sd); try done.
    intros w1 Hctx1 Hok1. unfold dispatchCallback.
    rewrite bool_decide_eq_false_2 by done.
    rewrite bool_decide_eq_true_2 by done. by apply (settings_known v w1 sd). }
  assert (∀ v name, languages_get (Some v) = Some name →
            Js.split ":" data = ("lang", [v]) → data ≠ "" →
            ∃ text o,
              (callbackQueryHandler u w).1 = Returned tt
              ∧ calls (callbackQueryHandler u w).2
                  = calls w ++ [answerCallbackQuery; editMessageText text o]
              ∧ text ∉ fallback_texts) as Hlang.
  { intros v name Hv Hsplit Hne.
    apply (press_edits u data "lang" [v] w sd); try done.
    intros w1 Hctx1 Hok1. unfold dispatchCallback.
    rewrite !bool_decide_eq_false_2 by done.
    rewrite bool_decide_eq_true_2 by done. by apply (language_known v name w1 sd). }
  unfold all_keyboards in Hkb.
  repeat (apply elem_of_cons in Hkb as [->|Hkb]);
    [..|by apply elem_of_nil in Hkb];
    cbn in Hdata;
    repeat (apply elem_of_cons in Hdata as [->|Hdata]);
    try (by apply elem_of_nil in Hdata);
    try (eapply Haction; [|reflexivity|discriminate];
         apply (bool_decide_unpack _); by vm_compute);
    try (eapply Hsettings; [|reflexivity|discriminate];
         apply (bool_decide_unpack _); by vm_compute);
    try (eapply Hlang; [|reflexivity|discriminate]; reflexivity).
  destruct (split_broadcast_confirm (pretty t)) as [rest Hsplit].
  apply (press_edits u ("broadcast:confirm:" +:+ pretty t)
           "broadcast" ("confirm" :: rest) w sd); try done.
  intros w1 Hctx1 Hok1. unfold dispatchCallback.
  rewrite !bool_decide_eq_false_2 by done.
  rewrite bool_decide_eq_true_2 by done. by apply broadcast_confirm_known.
Qed.

Lemma no_dead_button_witness :
  let u := Sample.press 1 "broadcast:confirm:7000" 9000 in
  let w := set_ctx_session (Some (defaultSessionData Sample.cfg)) boot in
  broadcastKeyboard 7000 ∈ all_keyboards 7000
  ∧ "broadcast:confirm:7000" ∈ payloads (broadcastKeyboard 7000)
  ∧ callbackData u = Some "broadcast:confirm:7000"
  ∧ ctx_session w = Some (defaultSessionData Sample.cfg)
  ∧ transport_ok w
  ∧ ∃ text o,
      (callbackQueryHandler u w).1 = Returned tt
      ∧ calls (callbackQueryHandler u w).2
          = calls w ++ [answerCallbackQuery; editMessageText text o]
      ∧ text ∉ fallback_texts.
Proof.
  intros u w.
  assert (broadcastKeyboard 7000 ∈ all_keyboards 7000) as Hkb
    by (unfold all_keyboards;
        repeat first [apply list_elem_of_here | apply list_elem_of_further]).
  assert ("broadcast:confirm:7000" ∈ payloads (broadcastKeyboard 7000)) as Hdata
    by (apply (bool_decide_unpack _); vm_compute; reflexivity).
  assert (transport_ok w) as Hok by constructor.
  split; [exact Hkb|]. split; [exact Hdata|]. split; [reflexivity|].
  split; [reflexivity|]. split; [exact Hok|].
  exact (no_dead_button 7000 (broadcastKeyboard 7000) "broadcast:confirm:7000"
           u w (defaultSessionData Sample.cfg) Hkb Hdata eq_refl eq_refl Hok).
Defined.

(** ** Sessions across chats *)

(** The routes work on the context, the outbox, the log, the handler trace
    and the registration endpoint; a component of the world that none of
    these carries is left as it was. *)
Section frame.

Context {B : Type} (f : World → B).
Hypothesis f_outbox : ∀ o t w, f (set_outbox o t w) = f w.
Hypothesis f_logs : ∀ l w, f (set_logs l w) = f w.
Hypothesis f_ctx_session : ∀ s w, f (set_ctx_session s w) = f w.
Hypothesis f_entered : ∀ h w, f (set_entered h w) = f w.
Hypothesis f_backend : ∀ b w, f (set_backend b w) = f w.

Lemma leaves_enter h : leaves f (enter h).
Proof. intros w. apply f_entered. Qed.

Lemma leaves_post : leaves f post.
Proof.
  intros w. unfold post.
  destruct (backend w) as [|[st d|e] rest]; cbn; [done|apply f_backend..].
Qed.

Lemma leaves_adminMiddleware cfg u next :
  leaves f next → leaves f (adminMiddleware cfg u next).
Proof. intros Hnext. unfold adminMiddleware. case_match; [leaves|done]. Qed.

Lemma leaves_commandValidationMiddleware u next :
  leaves f next → leaves f (commandValidationMiddleware u next).
Proof.
  intros Hnext. unfold commandValidationMiddleware.
  repeat case_match; try done. leaves.
Qed.

Lemma leaves_handlers u text :
  leaves f (startCommand u) ∧ leaves f helpCommand ∧
  leaves f settingsCommand ∧ leaves f aboutCommand ∧
  leaves f cancelCommand ∧ leaves f (statsCommand u) ∧
  leaves f (broadcastCommand u) ∧ leaves f logsCommand ∧
  leaves f (debugCommand u) ∧
  leaves f (callbackQueryHandler u) ∧ leaves f (textHandler text) ∧
  leaves f photoHandler ∧ leaves f documentHandler ∧
  leaves f stickerHandler ∧ leaves f voiceHandler.
Proof.
  pose proof (leaves_reset_userState f f_ctx_session) as Hreset.
  pose proof leaves_post as Hpost.
  split_and!;
    (apply leaves_bind; [apply leaves_enter|intros _]);
    leaves;
    first [ exact Hreset | exact Hpost | by apply leaves_dispatchCallback ].
Qed.

Lemma leaves_route cfg u : leaves f (route cfg u).
Proof.
  destruct (leaves_handlers u "") as (?&?&?&?&?&?&?&?&?&?&_&?&?&?&?).
  unfold route.
  repeat (match goal with
          | |- leaves _ (if ?b then _ else _) =>
              destruct b; [first [done | by apply leaves_adminMiddleware]|]
          end).
  destruct (payload u) as [text| | | | |[d|]|];
    first [ done | apply (leaves_handlers u) | apply leaves_ret ].
Qed.

End frame.

(** The session plugin writes the storage under the key of the update's
    chat only. *)
Lemma leaves_session_other cfg u next (k : string) :
  k ≠ Js.toString (chat_id u) →
  leaves (λ w, sessionStorage w !! k) next →
  leaves (λ w, sessionStorage w !! k) (session cfg u next).
Proof.
  intros Hk Hnext. unfold session.
  apply leaves_bind; [by intros w|intros stored].
  apply leaves_bind; [by intros w|intros _].
  apply leaves_bind; [done|intros _].
  apply leaves_bind; [by intros w|intros s].
  intros w. unfold storage_write. cbn.
  destruct s; by rewrite ?lookup_insert_ne, ?lookup_delete_ne.
Qed.

Lemma handleUpdate_sessions cfg u w (k : string) :
  k ≠ Js.toString (chat_id u) →
  sessionStorage (handleUpdate cfg u w).2 !! k = sessionStorage w !! k.
Proof.
  intros Hk.
  assert (once (λ w, sessionStorage w !! k) (λ _ _, False) (handleUpdate cfg u))
    as Honce; [|by destruct (Honce w)].
  unfold handleUpdate.
  apply once_bind_l; [by apply leaves_put_session|intros _].
  apply once_try_catch; [|intros e; by apply leaves_handleError].
  apply once_userValidationMiddleware; [done..|].
  apply once_rateLimitMiddleware; [done..|].
  apply once_leaves, leaves_session_other; [done|].
  unfold conversations.
  apply leaves_commandValidationMiddleware; [done..|].
  by apply leaves_route.
Qed.

(** X13: sessions are kept per chat and an update touches only the session
    of its own chat: whatever is sent in other chats, the stored session
    of a given chat stays as it is. *)
Theorem session_isolation cfg (us : list Update) (w : World) (chat : Z) :
  Forall (λ u, chat_id u ≠ chat) us →
  sessionStorage (run cfg us w) !! Js.toString chat
    = sessionStorage w !! Js.toString chat.
Proof.
  intros Hus. revert w.
  induction Hus as [|u us Hu _ IH]; intros w; [done|].
  cbn [run foldl]. fold (run cfg us (deliver cfg u w)). rewrite IH.
  rewrite deliver_world. apply handleUpdate_sessions.
  intros Heq. by apply toString_inj in Heq.
Qed.

Lemma session_isolation_witness :
  let us := [Sample.press 7 "lang:ru" 5000; Sample.msg 8 "/start" 5001;
             Sample.press 7 "settings:notifications" 5002] in
  sessionStorage (run Sample.cfg us boot) !! "9" = None
  ∧ languageCode <$> sessionStorage (run Sample.cfg us boot) !! "7"
      = Some (Some "ru").
Proof.
  intros us. split; [|by vm_compute].
  apply (session_isolation Sample.cfg us boot 9).
  apply (bool_decide_unpack _). vm_compute. reflexivity.
Defined.

(** ** Plain text through the whole stack *)

Lemma plain_text_no_command u text name :
  message_text u = Some text →
  Js.startsWith "/" text = false →
  is_command name u = false.
Proof.
  intros Htext Hplain. unfold is_command. rewrite Htext.
  apply bool_decide_eq_false_2. intros Hword.
  apply first_word_slash in Hword. by rewrite Hword in Hplain.
Qed.

Lemma dispatchStack_text cfg u text :
  payload u = MessageText text →
  Js.startsWith "/" text = false →
  dispatchStack cfg u = session cfg u (textHandler text).
Proof.
  intros Hp Hplain.
  assert (message_text u = Some text) as Htext
    by (unfold message_text; by rewrite Hp).
  unfold dispatchStack, conversations, commandValidationMiddleware, route.
  rewrite Htext, Hplain.
  rewrite !(plain_text_no_command u text) by done.
  rewrite andb_false_r. by rewrite Hp.
Qed.

(** X14: a text that is no command is answered once, by the text handler,
    according to the state of the chat's session.  When a validated sender
    whom the limiter lets pass sends a text that does not start with a
    slash, and the transport accepts the call, the stack returns normally,
    only the text handler is entered, the session of the chat is stored as
    it was read (the default for a new chat), and the one message sent is
    the confirmation of an input if that session waits for one, and
    otherwise the pointer to [/help] with the help and settings buttons. *)
Theorem text_answer cfg u w text :
  validated cfg u →
  payload u = MessageText text →
  Js.startsWith "/" text = false →
  (admission cfg (rateLimitKey u) (now u) (rateLimitStore w)).1 = true →
  transport_ok w →
  let sd := default (defaultSessionData cfg)
              (sessionStorage w !! Js.toString (chat_id u)) in
  let out := handleUpdate cfg u w in
  out.1 = Returned tt
  ∧ entered out.2 = entered w ++ [h_text]
  ∧ sessionStorage out.2 !! Js.toString (chat_id u) = Some sd
  ∧ calls out.2 =
      calls w ++
      [if bool_decide (userState sd = Some waiting_input)
       then sendMessage
              "‚úÖ Input received! Use /cancel to stop or continue with your action."
              no_other
       else sendMessage
              "üí¨ I received your message! Use /help to see what I can do."
              (markup textKeyboard)].
Proof.
  intros Hv Hp Hplain Hadm Hok sd out. subst out.
  destruct (admission cfg (rateLimitKey u) (now u) (rateLimitStore w))
    as [ok st] eqn:Hadmission. cbn in Hadm. subst ok.
  rewrite (handleUpdate_pass cfg u w st Hv Hadmission).
  rewrite (dispatchStack_text cfg u text Hp Hplain).
  set (w0 := set_ctx_session (Some sd)
               (set_rateLimitStore st (set_ctx_session None w))).
  set (c := if bool_decide (userState sd = Some waiting_input)
            then sendMessage
                   "‚úÖ Input received! Use /cancel to stop or continue with your action."
                   no_other
            else sendMessage
                   "üí¨ I received your message! Use /help to see what I can do."
                   (markup textKeyboard)).
  set (w1 := set_logs (logs w0 ++ [{| level := info;
                                     line := "Bot Event: text_message_received" |}])
               (set_entered (entered w0 ++ [h_text]) w0)).
  assert (textHandler text w0 =
          (Returned tt,
           set_outbox (outbox w1 ++ [{| call := c; delivered := true |}])
             (tail (transport w1)) w1)) as Hhandler.
  { unfold textHandler. rewrite bind_enter, Hplain.
    unfold logBotEvent. rewrite bind_log. rewrite bind_get_session.
    change (ctx_session _) with (Some sd). cbn [mbind option_bind].
    change (set_logs _ _) with w1. unfold c, reply.
    destruct (bool_decide (userState sd = Some waiting_input));
      exact (api_ok _ w1 Hok). }
  unfold errorMiddleware, try_catch.
  rewrite (session_returns cfg u _ _ _ Hhandler). cbn.
  split_and!; [done|done|by rewrite lookup_insert_eq|].
  unfold calls. cbn. by rewrite fmap_app.
Qed.

Lemma text_answer_witness :
  let u := Sample.msg 42 "hello there" 5000 in
  let out := handleUpdate Sample.cfg u boot in
  validated Sample.cfg u
  ∧ out.1 = Returned tt
  ∧ entered out.2 = [h_text]
  ∧ sessionStorage out.2 !! "42" = Some (defaultSessionData Sample.cfg)
  ∧ calls out.2 =
      [sendMessage "üí¨ I received your message! Use /help to see what I can do."
         (markup textKeyboard)].
Proof.
  intros u out.
  assert (validated Sample.cfg u) as Hv.
  { exists (Sample.user 42). split; [reflexivity|].
    apply (bool_decide_unpack _). vm_compute. reflexivity. }
  split; [exact Hv|].
  exact (text_answer Sample.cfg u boot "hello there"
           Hv eq_refl eq_refl eq_refl (Forall_nil_2 _)).
Defined.

(** ** The handler of last resort *)

(** X15: no error leaves the middleware stack, so the handler that
    [setupErrorHandling] installs with [bot.catch] has nothing to report:
    whatever the update, the stores, the failures scripted for the
    transport (also for the reply of the error boundary itself) and for
    the registration endpoint, the stack returns normally, and delivering
    the update is running it through the stack, with no line added by
    [bot.catch]. *)
Theorem catch_never_fires cfg (u : Update) (w : World) :
  (handleUpdate cfg u w).1 = Returned tt
  ∧ deliver cfg u w = (handleUpdate cfg u w).2.
Proof. split; [apply handleUpdate_returns|apply deliver_world]. Qed.
